(** * n8n-openapi-node: the document walker and the schema-to-field compiler

    A shallow embedding of [src/openapi/OpenAPIWalker.ts] and of the two
    listings of [src/n8n/SchemaToINodeProperties.ts], followed by the
    properties the specification states about them.

    JavaScript objects whose key order is observable ([Object.keys],
    [for .. in], [Object.entries]) are association lists in that order.
    Exceptions are an error monad [Res].  The collaborators that live
    outside these files (reference resolver, example extractor, lodash,
    built-ins of the platform) are the fields of the class
    [Collaborators]. *)

From stdpp Require Import base option list strings pretty gmap.
From Stdlib Require Import Ascii ZArith Lia.

Local Open Scope string_scope.
#[local] Set Warnings "-register-all".

(** ** JavaScript values *)

(** JSON data as it appears in examples, defaults and enum literals.
    [undefined] is never a [value]: an optional slot is an [option].
    Only the zero test of a number is ever observed by this code, so
    numbers are integers. *)
Inductive value : Type :=
  | VNull
  | VBool (b : bool)
  | VNum (n : Z)
  | VStr (s : string)
  | VArr (elements : list value)
  | VObj (members : list (string * value)).

(** The double quote, for the string literals that contain one. *)
Definition dq : string :=
  String (Ascii.Ascii false true false false false true false false) EmptyString.

Definition nonEmpty (s : string) : bool :=
  match s with EmptyString => false | String _ _ => true end.

(** [ToBoolean] on a value. *)
Definition truthy (v : value) : bool :=
  match v with
  | VNull => false
  | VBool b => b
  | VNum n => negb (n =? 0)%Z
  | VStr s => nonEmpty s
  | VArr _ | VObj _ => true
  end.

(** [ToBoolean] on an optional string, boolean or value. *)
Definition truthyStr (s : option string) : bool :=
  match s with Some s => nonEmpty s | None => false end.

Definition truthyBool (b : option bool) : bool :=
  match b with Some b => b | None => false end.

Definition truthyOpt (v : option value) : bool :=
  match v with Some v => truthy v | None => false end.

(** [a || b] on optional strings. *)
Definition orStr (a b : option string) : option string :=
  if truthyStr a then a else b.

(** [a === 'lit'] for an optional string. *)
Definition isStr (a : option string) (lit : string) : bool :=
  match a with Some s => String.eqb s lit | None => false end.

(** ** Exceptions *)

(** [TypeError] is what the engine raises on a property access of
    [undefined] and on [Object.keys(undefined)]; [Error] is a
    [throw new Error(message)] of the program. *)
Inductive exn : Type :=
  | TypeError
  | Error (message : string).

Inductive Res (A : Type) : Type :=
  | Ok (a : A)
  | Throw (e : exn).
Arguments Ok {A} a.
Arguments Throw {A} e.

#[global] Instance Res_ret : MRet Res := @Ok.

#[global] Instance Res_bind : MBind Res := fun A B k m =>
  match m with
  | Ok a => k a
  | Throw e => Throw e
  end.

(** Property access on a possibly undefined object. *)
Definition deref {A} (o : option A) : Res A :=
  match o with
  | Some a => Ok a
  | None => Throw TypeError
  end.

Fixpoint mapM {A B} (f : A -> Res B) (l : list A) : Res (list B) :=
  match l with
  | [] => Ok []
  | a :: l' => b ← f a; bs ← mapM f l'; Ok (b :: bs)
  end.

(** ** The OpenAPI document model (openapi-types, [OpenAPIV3]) *)

Record SchemaObjectOf (S : Type) : Type := mkSchemaObject {
  s_type : option string;
  s_description : option string;
  s_enum : option (list value);
  s_properties : option (list (string * S));
  s_required : option (list string);
  s_items : option S;
  s_example : option value
}.
Arguments mkSchemaObject {S}.
Arguments s_type {S}.
Arguments s_description {S}.
Arguments s_enum {S}.
Arguments s_properties {S}.
Arguments s_required {S}.
Arguments s_items {S}.
Arguments s_example {S}.

(** [ReferenceObject | SchemaObject] *)
Inductive Schema : Type :=
  | SRef (ref : string)
  | SInline (o : SchemaObjectOf Schema).

Abbreviation SchemaObject := (SchemaObjectOf Schema).

Record MediaTypeObject : Type := mkMediaType {
  m_schema : option Schema
}.

(** A media-type-keyed map, in [Object.keys] order. *)
Abbreviation Content := (list (string * MediaTypeObject)).

Record ParameterObject : Type := mkParameter {
  p_name : string;
  p_in : string;
  p_required : option bool;
  p_description : option string;
  p_example : option value;
  p_schema : option Schema;
  p_content : option Content;
  p_style : option string;
  p_explode : option bool
}.

(** [ReferenceObject | ParameterObject] *)
Inductive ParameterOrRef : Type :=
  | PRef (ref : string)
  | PInline (o : ParameterObject).

Record RequestBodyObject : Type := mkRequestBody {
  b_content : option Content;
  b_required : option bool
}.

(** [ReferenceObject | RequestBodyObject] *)
Inductive RequestBody : Type :=
  | BRef (ref : string)
  | BInline (o : RequestBodyObject).

Record OperationObject : Type := mkOperation {
  o_tags : option (list string);
  o_parameters : option (list ParameterOrRef);
  o_requestBody : option RequestBody
}.

(** A path item: its path-scoped parameters and, in [Object.entries]
    order, its members that hold an operation object.  The other members
    (summary, description, servers, parameters) have keys that are no
    HTTP method; the walker skips them by the same test that skips any
    key of [pi_members] outside [HttpMethods]. *)
Record PathItemObject : Type := mkPathItem {
  pi_parameters : option (list ParameterOrRef);
  pi_members : list (string * OperationObject)
}.

(** The path table, in [for .. in] order. *)
Abbreviation PathsObject := (list (string * PathItemObject)).

Record TagObject : Type := mkTag {
  tag_name : string;
  tag_description : option string
}.

Record Document : Type := mkDocument {
  doc_paths : option PathsObject;
  doc_tags : option (list TagObject)
}.

(** ** The output model (n8n-workflow, [INodeProperties]) *)

Inductive NodePropertyTypes : Type :=
  | NBoolean | NString | NJson | NNumber | NOptions | NFixedCollection.

Record SendRouting : Type := mkSend {
  send_type : string;
  send_property : string;
  send_value : option string;
  send_propertyInDotNotation : option bool
}.

Record RequestRouting : Type := mkRequest {
  request_headers : option (list (string * string));
  request_body : option string
}.

Record Routing : Type := mkRouting {
  r_send : option SendRouting;
  r_request : option RequestRouting
}.

(** The single sub-field of an array query parameter's collection. *)
Record ItemProperty : Type := mkItemProperty {
  i_displayName : string;
  i_name : string;
  i_type : NodePropertyTypes;
  i_default : option value;
  i_description : string
}.

Inductive NodeOption : Type :=
  | Choice (name : string) (v : value)
  | Collection (name displayName : string) (values : list ItemProperty).

Record TypeOptions : Type := mkTypeOptions {
  multipleValues : bool
}.

(** [Partial<INodeProperties>]: an absent key and a key holding
    [undefined] are both [None] ([combine] deletes the latter). *)
Record INodeProperties : Type := mkField {
  f_displayName : option string;
  f_name : option string;
  f_required : option bool;
  f_description : option string;
  f_default : option value;
  f_type : option NodePropertyTypes;
  f_options : option (list NodeOption);
  f_typeOptions : option TypeOptions;
  f_routing : option Routing
}.

Definition emptyField : INodeProperties :=
  mkField None None None None None None None None None.

(** ** Collaborators *)

(** What the compiler calls and these files do not define.
    - [resolveSchema], [resolveParameter], [resolveRequestBody]:
      [RefResolver.resolve<T>], which follows references and may throw;
      the schema resolver is also handed [undefined] ([content.schema]
      of a media type without schema) and nothing is assumed about what
      it does then;
    - [extractExample]: [SchemaExample.extractExample];
    - [startCase]: [lodash.startCase], applied to parameter names,
      property keys and enum literals;
    - [encodeURIComponent], [JSON_stringify v] for
      [JSON.stringify(v, null, 2)]: built-ins, total on the strings and
      JSON values of the model. *)
Class Collaborators : Type := {
  resolveSchema : option Schema -> Res (option SchemaObject);
  resolveParameter : ParameterOrRef -> Res ParameterObject;
  resolveRequestBody : RequestBody -> Res RequestBodyObject;
  extractExample : SchemaObject -> option value;
  startCase : value -> string;
  encodeURIComponent : string -> string;
  JSON_stringify : value -> string
}.

(** ** Module-level helpers of SchemaToINodeProperties.ts *)

Definition orElse {A} (a b : option A) : option A :=
  match a with Some _ => a | None => b end.

(** [lodash.defaults(object, source)]: a key of [source] is assigned
    where [object] resolves it to [undefined]. *)
Definition defaults (object source : INodeProperties) : INodeProperties :=
  {| f_displayName := orElse (f_displayName object) (f_displayName source);
     f_name := orElse (f_name object) (f_name source);
     f_required := orElse (f_required object) (f_required source);
     f_description := orElse (f_description object) (f_description source);
     f_default := orElse (f_default object) (f_default source);
     f_type := orElse (f_type object) (f_type source);
     f_options := orElse (f_options object) (f_options source);
     f_typeOptions := orElse (f_typeOptions object) (f_typeOptions source);
     f_routing := orElse (f_routing object) (f_routing source) |}.

(** [if (!field.required) delete field.required] *)
Definition dropFalsyRequired (field : INodeProperties) : INodeProperties :=
  {| f_displayName := f_displayName field;
     f_name := f_name field;
     f_required := if truthyBool (f_required field) then f_required field else None;
     f_description := f_description field;
     f_default := f_default field;
     f_type := f_type field;
     f_options := f_options field;
     f_typeOptions := f_typeOptions field;
     f_routing := f_routing field |}.

Definition combine (sources : list INodeProperties) : INodeProperties :=
  let obj := fold_left defaults sources emptyField in
  dropFalsyRequired obj.

(** [regexp.test(key)] for the unanchored [/application\/json.*/]: the
    key contains [application/json]. *)
Fixpoint containsFrom (needle : string) (key : string) : bool :=
  String.prefix needle key
  || match key with
     | EmptyString => false
     | String _ rest => containsFrom needle rest
     end.

Definition jsonRegexp (key : string) : bool :=
  containsFrom "application/json" key.

(** [obj[key]] on an association list. *)
Fixpoint getKey {A} (obj : list (string * A)) (key : string) : option A :=
  match obj with
  | [] => None
  | (k, v) :: rest => if String.eqb k key then Some v else getKey rest key
  end.

(** [Object.keys(obj)] *)
Definition keys {A} (obj : list (string * A)) : list string := map fst obj.

(** [findKey(obj, regexp)]; [Object.keys(undefined)] throws. *)
Definition findKey {A} (obj : option (list (string * A))) (regexp : string -> bool)
  : Res (option A) :=
  obj ← deref obj;
  match List.find regexp (keys obj) with
  | Some key => Ok (if nonEmpty key then getKey obj key else None)
  | None => Ok None
  end.

(** [name.replace(/\./g, "-")] *)
Fixpoint replaceDots (name : string) : string :=
  match name with
  | EmptyString => EmptyString
  | String c rest =>
      String (if Ascii.eqb c "."%char then "-"%char else c) (replaceDots rest)
  end.

(** The routing expressions the compiler emits. *)
Definition rawValue : string := "={{ $value }}".
Definition parsedValue : string := "={{ JSON.parse($value) }}".
Definition explodedItems : string :=
  "={{ $value.items ? $value.items.map(item => item.value) : [] }}".
Definition joinedItems : string :=
  "={{ $value.items ? $value.items.map(item => item.value).join("
  +:+ dq +:+ "," +:+ dq +:+ ") : " +:+ dq +:+ dq +:+ " }}".
Definition binaryMimeType : string :=
  "={{ $binary[$parameter[" +:+ dq +:+ "body" +:+ dq +:+ "]].mimeType }}".

Definition defined {A} (o : option A) : bool :=
  match o with Some _ => true | None => false end.

(** Assignments to single keys of a field. *)
Definition setRequired (r : option bool) (field : INodeProperties) : INodeProperties :=
  mkField (f_displayName field) (f_name field) r (f_description field)
    (f_default field) (f_type field) (f_options field) (f_typeOptions field)
    (f_routing field).

Definition setRouting (r : Routing) (field : INodeProperties) : INodeProperties :=
  mkField (f_displayName field) (f_name field) (f_required field)
    (f_description field) (f_default field) (f_type field) (f_options field)
    (f_typeOptions field) (Some r).

Definition setDefault (d : option value) (field : INodeProperties) : INodeProperties :=
  mkField (f_displayName field) (f_name field) (f_required field)
    (f_description field) d (f_type field) (f_options field)
    (f_typeOptions field) (f_routing field).

(** [schema.enum[0]] *)
Definition firstOf {A} (l : list A) : option A :=
  match l with x :: _ => Some x | [] => None end.

(** Routing of one body property (both listings). *)
Definition bodyPropertyRouting (key : string) (field : INodeProperties) : Routing :=
  match f_type field with
  | Some NJson =>
      {| r_send := Some (mkSend "body" key (Some parsedValue) (Some false));
         r_request := None |}
  | _ =>
      {| r_send := Some (mkSend "body" key (Some rawValue) (Some false));
         r_request := None |}
  end.

(** [schema.required && schema.required?.includes(key)] *)
Definition requiredIncludes (required : option (list string)) (key : string)
  : option bool :=
  match required with
  | Some l => Some (existsb (String.eqb key) l)
  | None => None
  end.

Definition requiredOnly (r : option bool) : INodeProperties :=
  setRequired r emptyField.

(** ** Methods the two listings of [N8NINodeProperties] have in common

    [fromParameter], [fromArrayQueryParameter], [getArrayItemType],
    [getArrayQueryRouting], [fromParameters], [fromSchemaProperty] and the
    loop of [fromRequestBody] over the declared properties are the same
    text in both listings; they are defined once, over the [fromSchema]
    and [getArrayItemDefault] of the listing. *)
Module Shared.
Section Methods.
Context `{!Collaborators}.
Variable fromSchema : option Schema -> Res INodeProperties.
Variable getArrayItemDefault : SchemaObject -> option value.

Definition getArrayItemType (itemsSchema : SchemaObject) : NodePropertyTypes :=
  if isStr (s_type itemsSchema) "boolean" then NBoolean
  else if isStr (s_type itemsSchema) "number" then NNumber
  else if isStr (s_type itemsSchema) "integer" then NNumber
  else NString.

Definition fromArrayQueryParameter (schema : SchemaObject)
    (parameter : ParameterObject) : Res INodeProperties :=
  if negb (isStr (s_type schema) "array") || negb (defined (s_items schema)) then
    Throw (Error "fromArrayQueryParameter called with non-array schema")
  else
    itemsSchema ← resolveSchema (s_items schema);
    let defaultValue := extractExample schema in
    itemsSchema ← deref itemsSchema;
    let field :=
      {| f_displayName := None;
         f_name := None;
         f_required := None;
         f_description := orStr (s_description schema) (p_description parameter);
         f_default := Some (VObj []);
         f_type := Some NFixedCollection;
         f_options := Some [Collection "items" "Items"
           [ {| i_displayName := "Value";
                i_name := "value";
                i_type := getArrayItemType itemsSchema;
                i_default := getArrayItemDefault itemsSchema;
                i_description :=
                  if truthyStr (s_description itemsSchema)
                  then default EmptyString (s_description itemsSchema)
                  else "Item value ("
                       +:+ default "any" (orStr (s_type itemsSchema) (Some "any"))
                       +:+ ")" |} ]];
         f_typeOptions := Some {| multipleValues := true |};
         f_routing := None |} in
    match defaultValue with
    | Some (VArr (v :: vs)) =>
        Ok (setDefault
              (Some (VObj [("items",
                 VArr (map (fun val => VObj [("value", val)]) (v :: vs)))]))
              field)
    | _ => Ok field
    end.

Definition getArrayQueryRouting (parameter : ParameterObject)
    (schema : SchemaObject) : Routing :=
  let style := default "form" (orStr (p_style parameter) (Some "form")) in
  let explode :=
    match p_explode parameter with Some false => false | _ => true end in
  if String.eqb style "form" && explode then
    {| r_send := Some (mkSend "query" (p_name parameter)
                         (Some explodedItems) (Some false));
       r_request := None |}
  else if String.eqb style "form" && negb explode then
    {| r_send := Some (mkSend "query" (p_name parameter)
                         (Some joinedItems) (Some false));
       r_request := None |}
  else
    {| r_send := Some (mkSend "query" (p_name parameter)
                         (Some explodedItems) (Some false));
       r_request := None |}.

(** [parameter.in === 'query' && schema && schema.type === 'array'],
    as the schema it lets through. *)
Definition arrayQuerySchema (parameter : ParameterObject)
    (schema : option SchemaObject) : option SchemaObject :=
  if String.eqb (p_in parameter) "query" then
    match schema with
    | Some so => if isStr (s_type so) "array" then Some so else None
    | None => None
    end
  else None.

Definition fromParameter (parameter : ParameterOrRef) : Res INodeProperties :=
  parameter ← resolveParameter parameter;
  fieldSchemaKeys ←
    match p_schema parameter with
    | Some s => f ← fromSchema (Some s); Ok (Some f)
    | None => Ok None
    end;
  fieldSchemaKeys ←
    match fieldSchemaKeys with
    | Some f => Ok (Some f)
    | None =>
        content ← findKey (p_content parameter) jsonRegexp;
        content ← deref content;
        f ← fromSchema (m_schema content); Ok (Some f)
    end;
  match fieldSchemaKeys with
  | None => Throw (Error "Parameter schema nor content not found")
  | Some fieldSchemaKeys =>
      schemaNode ←
        match p_schema parameter with
        | Some s => Ok (Some s)
        | None =>
            match p_content parameter with
            | None => Ok None
            | Some c => found ← findKey (Some c) jsonRegexp;
                        Ok (found ≫= m_schema)
            end
        end;
      schema ← resolveSchema schemaNode;
      let isArrayQueryParam := arrayQuerySchema parameter schema in
      fieldSchemaKeys ←
        match isArrayQueryParam with
        | Some so => fromArrayQueryParameter so parameter
        | None => Ok fieldSchemaKeys
        end;
      let fieldParameterKeys :=
        {| f_displayName := Some (startCase (VStr (p_name parameter)));
           f_name := Some (encodeURIComponent (replaceDots (p_name parameter)));
           f_required := p_required parameter;
           f_description :=
             if truthyStr (p_description parameter)
             then p_description parameter else None;
           f_default := p_example parameter;
           f_type := None;
           f_options := None;
           f_typeOptions := None;
           f_routing := None |} in
      let field := combine [fieldParameterKeys; fieldSchemaKeys] in
      field ←
        (if String.eqb (p_in parameter) "query" then
           match isArrayQueryParam with
           | Some so => Ok (setRouting (getArrayQueryRouting parameter so) field)
           | None =>
               Ok (setRouting
                     {| r_send := Some (mkSend "query" (p_name parameter)
                                          (Some rawValue) (Some false));
                        r_request := None |} field)
           end
         else if String.eqb (p_in parameter) "path" then
           Ok (setRequired (Some true) field)
         else if String.eqb (p_in parameter) "header" then
           Ok (setRouting
                 {| r_send := None;
                    r_request := Some
                      {| request_headers := Some [(p_name parameter, rawValue)];
                         request_body := None |} |} field)
         else
           Throw (Error ("Unknown parameter location '"
                         +:+ p_in parameter +:+ "'")));
      Ok (dropFalsyRequired field)
  end.

Definition fromParameters (parameters : option (list ParameterOrRef))
    : Res (list INodeProperties) :=
  match parameters with
  | None => Ok []
  | Some parameters => mapM fromParameter parameters
  end.

Definition fromSchemaProperty (name : string) (property : option Schema)
    : Res INodeProperties :=
  fieldSchemaKeys ← fromSchema property;
  let fieldParameterKeys :=
    {| f_displayName := Some (startCase (VStr name));
       f_name := Some (replaceDots name);
       f_required := None;
       f_description := None;
       f_default := None;
       f_type := None;
       f_options := None;
       f_typeOptions := None;
       f_routing := None |} in
  Ok (combine [fieldParameterKeys; fieldSchemaKeys]).

(** One turn of [for (const key in properties)] in [fromRequestBody]. *)
Definition propertyField (schema : SchemaObject) (entry : string * Schema)
    : Res INodeProperties :=
  let '(key, property) := entry in
  fieldPropertyKeys ← fromSchemaProperty key (Some property);
  let fieldDefaults := requiredOnly (requiredIncludes (s_required schema) key) in
  let field := combine [fieldDefaults; fieldPropertyKeys] in
  Ok (setRouting (bodyPropertyRouting key field) field).
End Methods.
End Shared.

(** ** First listing: defaults only where the toggle needs one *)
Module SparseDefaults.
Section Methods.
Context `{!Collaborators}.

(** The [switch (schema.type)] of [fromSchema]: the presentation type
    and the default it leaves. *)
Definition typeAndDefault (schema : SchemaObject)
    : option NodePropertyTypes * option value :=
  let defaultValue := extractExample schema in
    if isStr (s_type schema) "boolean" then
      (Some NBoolean,
       match defaultValue with None => Some (VBool false) | Some d => Some d end)
    else if isStr (s_type schema) "string" || negb (defined (s_type schema)) then
      (Some NString, defaultValue)
    else if isStr (s_type schema) "object" then
      (Some NJson, (fun d => VStr (JSON_stringify d)) <$> defaultValue)
    else if isStr (s_type schema) "array" then
      (Some NJson, (fun d => VStr (JSON_stringify d)) <$> defaultValue)
    else if isStr (s_type schema) "number" || isStr (s_type schema) "integer" then
      (Some NNumber, defaultValue)
    else (None, defaultValue).

Definition fromSchema (schema : option Schema) : Res INodeProperties :=
  schema ← resolveSchema schema;
  schema ← deref schema;
  let '(type, defaultValue) := typeAndDefault schema in
  let field :=
    {| f_displayName := None;
       f_name := None;
       f_required := None;
       f_description := s_description schema;
       f_default := defaultValue;
       f_type := type;
       f_options := None;
       f_typeOptions := None;
       f_routing := None |} in
  match s_enum schema with
  | Some (e :: es) =>
      Ok {| f_displayName := None;
            f_name := None;
            f_required := None;
            f_description := f_description field;
            f_default :=
              match f_default field with
              | Some d => Some d
              | None => firstOf (e :: es)
              end;
            f_type := Some NOptions;
            f_options :=
              Some (map (fun v => Choice (startCase v) v) (e :: es));
            f_typeOptions := None;
            f_routing := None |}
  | _ => Ok field
  end.

Definition getArrayItemDefault (itemsSchema : SchemaObject) : option value :=
  match extractExample itemsSchema with
  | Some d => Some d
  | None =>
      if isStr (s_type itemsSchema) "boolean" then Some (VBool false)
      else None
  end.

Definition fromArrayQueryParameter :=
  Shared.fromArrayQueryParameter getArrayItemDefault.
Definition fromParameter :=
  Shared.fromParameter fromSchema getArrayItemDefault.
Definition fromParameters :=
  Shared.fromParameters fromSchema getArrayItemDefault.
Definition fromSchemaProperty := Shared.fromSchemaProperty fromSchema.

Definition propertyField := Shared.propertyField fromSchema.

(** [fromRequestBody] once [content] and [contentType] are settled. *)
Definition compileContent (body : RequestBodyObject)
    (content : MediaTypeObject) (contentType : string)
    : Res (list INodeProperties) :=
  schema ← resolveSchema (m_schema content);
  schema ← deref schema;
  if negb (defined (s_properties schema))
     && (isStr (s_type schema) "string" || isStr (s_type schema) "number"
         || isStr (s_type schema) "integer" || isStr (s_type schema) "boolean")
  then
    fieldPropertyKeys ← fromSchema (Some (SInline schema));
    let fieldDefaults :=
      {| f_displayName := Some "Body";
         f_name := Some "body";
         f_required := b_required body;
         f_description :=
           orStr (s_description schema) (Some "Request body content");
         f_default := None;
         f_type := None;
         f_options := None;
         f_typeOptions := None;
         f_routing := None |} in
    let field := combine [fieldDefaults; fieldPropertyKeys] in
    if String.eqb contentType "*/*" && isStr (s_type schema) "string" then
      Ok [ {| f_displayName := Some "Binary Property";
              f_name := f_name field;
              f_required := f_required field;
              f_description :=
                Some "Name of the binary property containing the file to upload";
              f_default := Some (VStr "data");
              f_type := Some NString;
              f_options := f_options field;
              f_typeOptions := f_typeOptions field;
              f_routing := Some
                {| r_send := Some (mkSend "body" "$value" None None);
                   r_request := Some
                     {| request_headers := Some [("Content-Type", binaryMimeType)];
                        request_body := None |} |} |} ]
    else
      Ok [ setRouting
             {| r_send := None;
                r_request := Some {| request_headers := None;
                                     request_body := Some rawValue |} |}
             field ]
  else if isStr (s_type schema) "array" && defined (s_items schema) then
    innerSchema ← resolveSchema (s_items schema);
    fieldPropertyKeys ← fromSchemaProperty "body" (option_map SInline innerSchema);
    let fieldDefaults := requiredOnly (b_required body) in
    let field := combine [fieldDefaults; fieldPropertyKeys] in
    Ok [ setRouting
           {| r_send := None;
              r_request := Some {| request_headers := None;
                                   request_body := Some parsedValue |} |}
           field ]
  else if negb (defined (s_properties schema))
          && negb (isStr (s_type schema) "object") then
    Throw (Error ("Request body schema type '"
                  +:+ default "undefined" (s_type schema)
                  +:+ "' not supported"))
  else
    mapM (propertyField schema) (default [] (s_properties schema)).

Definition fromRequestBody (body : option RequestBody)
    : Res (list INodeProperties) :=
  match body with
  | None => Ok []
  | Some body =>
      body ← resolveRequestBody body;
      content ← findKey (b_content body) jsonRegexp;
      let contentType := "application/json" in
      let '(content, contentType) :=
        match content with
        | Some c => (Some c, contentType)
        | None => (b_content body ≫= fun c => getKey c "*/*", "*/*")
        end in
      let '(content, contentType) :=
        match content with
        | Some c => (Some c, contentType)
        | None =>
            let contentTypes := keys (default [] (b_content body)) in
            match contentTypes with
            | first :: _ => (b_content body ≫= fun c => getKey c first, first)
            | [] => (None, contentType)
            end
        end in
      match content with
      | None => Throw (Error "No content found in request body")
      | Some content => compileContent body content contentType
      end
  end.
End Methods.
End SparseDefaults.

(** ** Second listing: always a concrete default *)
Module ConcreteDefaults.
Section Methods.
Context `{!Collaborators}.

(** The [switch (schema.type)] of [fromSchema]: the presentation type
    and the default it leaves. *)
Definition typeAndDefault (schema : SchemaObject)
    : option NodePropertyTypes * option value :=
  let defaultValue := extractExample schema in
    if isStr (s_type schema) "boolean" then
      (Some NBoolean, Some (default (VBool true) defaultValue))
    else if isStr (s_type schema) "string" || negb (defined (s_type schema)) then
      (Some NString, Some (default (VStr EmptyString) defaultValue))
    else if isStr (s_type schema) "object" then
      (Some NJson,
       Some (default (VStr "{}")
               ((fun d => VStr (JSON_stringify d)) <$> defaultValue)))
    else if isStr (s_type schema) "array" then
      (Some NJson,
       Some (default (VStr "[]")
               ((fun d => VStr (JSON_stringify d)) <$> defaultValue)))
    else if isStr (s_type schema) "number" || isStr (s_type schema) "integer" then
      (Some NNumber, Some (default (VNum 0) defaultValue))
    else (None, defaultValue).

Definition fromSchema (schema : option Schema) : Res INodeProperties :=
  schema ← resolveSchema schema;
  schema ← deref schema;
  let '(type, defaultValue) := typeAndDefault schema in
  let field :=
    {| f_displayName := None;
       f_name := None;
       f_required := None;
       f_description := s_description schema;
       f_default := defaultValue;
       f_type := type;
       f_options := None;
       f_typeOptions := None;
       f_routing := None |} in
  match s_enum schema with
  | Some (e :: es) =>
      Ok {| f_displayName := None;
            f_name := None;
            f_required := None;
            f_description := f_description field;
            f_default :=
              if truthyOpt (f_default field) then f_default field
              else firstOf (e :: es);
            f_type := Some NOptions;
            f_options :=
              Some (map (fun v => Choice (startCase v) v) (e :: es));
            f_typeOptions := None;
            f_routing := None |}
  | _ => Ok field
  end.

Definition getArrayItemDefault (itemsSchema : SchemaObject) : option value :=
  match extractExample itemsSchema with
  | Some d => Some d
  | None =>
      if isStr (s_type itemsSchema) "boolean" then Some (VBool false)
      else if isStr (s_type itemsSchema) "number" then Some (VNum 0)
      else if isStr (s_type itemsSchema) "integer" then Some (VNum 0)
      else Some (VStr EmptyString)
  end.

Definition fromArrayQueryParameter :=
  Shared.fromArrayQueryParameter getArrayItemDefault.
Definition fromParameter :=
  Shared.fromParameter fromSchema getArrayItemDefault.
Definition fromParameters :=
  Shared.fromParameters fromSchema getArrayItemDefault.
Definition fromSchemaProperty := Shared.fromSchemaProperty fromSchema.

Definition propertyField := Shared.propertyField fromSchema.

(** The array step of [fromRequestBody]: the fields it pushes. *)
Definition arrayBodyFields (schema : SchemaObject) : Res (list INodeProperties) :=
  if isStr (s_type schema) "array" && defined (s_items schema) then
    innerSchema ← resolveSchema (s_items schema);
    fieldPropertyKeys ← fromSchemaProperty "body" (option_map SInline innerSchema);
    let fieldDefaults := requiredOnly (Some (defined (s_required schema))) in
    let field := combine [fieldDefaults; fieldPropertyKeys] in
    Ok [ setRouting
           {| r_send := None;
              r_request := Some {| request_headers := None;
                                   request_body := Some parsedValue |} |}
           field ]
  else Ok [].

(** [fromRequestBody] once [content] is settled. *)
Definition compileContent (body : RequestBodyObject)
    (content : MediaTypeObject) : Res (list INodeProperties) :=
  schema ← resolveSchema (m_schema content);
  schema ← deref schema;
  if negb (defined (s_properties schema))
     && negb (isStr (s_type schema) "object")
     && negb (isStr (s_type schema) "array")
  then
    Throw (Error ("Request body schema type '"
                  +:+ default "undefined" (s_type schema)
                  +:+ "' not supported"))
  else
    fields ← arrayBodyFields schema;
    rest ← mapM (propertyField schema) (default [] (s_properties schema));
    Ok (fields ++ rest)%list.

Definition fromRequestBody (body : option RequestBody)
    : Res (list INodeProperties) :=
  match body with
  | None => Ok []
  | Some body =>
      body ← resolveRequestBody body;
      content ← findKey (b_content body) jsonRegexp;
      match content with
      | None => Throw (Error "No '/application\/json.*/' content found")
      | Some content => compileContent body content
      end
  end.
End Methods.
End ConcreteDefaults.

(** ** The document walker (OpenAPIWalker.ts) *)

Record OperationContext : Type := mkContext {
  pattern : string;
  path : PathItemObject;
  method : string
}.

(** [OpenAPIVisitor]: every capability is optional.  A handler is a
    transformer of the visitor's own state [S]; it is handed the objects
    of the document as they are at the time of the call. *)
Record OpenAPIVisitor (S : Type) : Type := mkVisitor {
  visitDocument : option (Document -> S -> S);
  visitOperation : option (OperationObject -> OperationContext -> S -> S);
  visitTag : option (TagObject -> S -> S);
  finish : option (S -> S)
}.
Arguments mkVisitor {S}.
Arguments visitDocument {S}.
Arguments visitOperation {S}.
Arguments visitTag {S}.
Arguments finish {S}.

Definition setTags (tags : list string) (operation : OperationObject)
  : OperationObject :=
  mkOperation (Some tags) (o_parameters operation) (o_requestBody operation).

Definition setParameters (parameters : list ParameterOrRef)
    (operation : OperationObject) : OperationObject :=
  mkOperation (o_tags operation) (Some parameters) (o_requestBody operation).

Module Walker.
Section Walk.
(** [Object.values(OpenAPIV3.HttpMethods)], a constant of openapi-types. *)
Variable HttpMethods : list string.
Context {S : Type}.
Variable visitor : OpenAPIVisitor S.

Definition includes (l : list string) (s : string) : bool :=
  existsb (String.eqb s) l.

(** [if (!operation.tags || operation.tags.length === 0) operation.tags = ['default']] *)
Definition defaultTags (operation : OperationObject) : OperationObject :=
  match o_tags operation with
  | None | Some [] => setTags ["default"] operation
  | Some (_ :: _) => operation
  end.

(** [p => '$ref' in p ? null : p.name] *)
Definition nameOrNull (p : ParameterOrRef) : option string :=
  match p with
  | PRef _ => None
  | PInline o => Some (p_name o)
  end.

Definition operationParamNames (operationParameters : list ParameterOrRef)
  : gset (option string) :=
  list_to_set (List.filter truthyStr (map nameOrNull operationParameters)).

Definition notOverridden (names : gset (option string)) (p : ParameterOrRef)
  : bool :=
  match p with
  | PRef _ => true
  | PInline o => negb (bool_decide (Some (p_name o) ∈ names))
  end.

(** The merge of path-level into operation-level parameters. *)
Definition mergeParameters (pathLevelParameters : list ParameterOrRef)
    (operation : OperationObject) : OperationObject :=
  if (0 <? length pathLevelParameters)%nat then
    let operationParameters := default [] (o_parameters operation) in
    let names := operationParamNames operationParameters in
    let mergedParameters :=
      (List.filter (notOverridden names) pathLevelParameters
       ++ operationParameters)%list in
    setParameters mergedParameters operation
  else operation.

(** What one turn of the inner loop leaves in place of [operation]. *)
Definition normalize (pathLevelParameters : list ParameterOrRef)
    (operation : OperationObject) : OperationObject :=
  let operation := defaultTags operation in
  match visitOperation visitor with
  | Some _ => mergeParameters pathLevelParameters operation
  | None => operation
  end.

(** The inner loop over [Object.entries(pathItem)]: [done] are the
    entries behind the cursor, as the loop left them. *)
Fixpoint walkMembers (pattern : string) (parameters : option (list ParameterOrRef))
    (done todo : list (string * OperationObject)) (st : S)
    : list (string * OperationObject) * S :=
  match todo with
  | [] => (done, st)
  | (method, operation) :: rest =>
      if negb (includes HttpMethods method) then
        walkMembers pattern parameters (done ++ [(method, operation)])%list rest st
      else
        let pathLevelParameters := default [] parameters in
        let operation := normalize pathLevelParameters operation in
        let st :=
          match visitOperation visitor with
          | Some visit =>
              let context :=
                {| pattern := pattern;
                   path := mkPathItem parameters
                             (done ++ (method, operation) :: rest)%list;
                   method := method |} in
              visit operation context st
          | None => st
          end in
        walkMembers pattern parameters (done ++ [(method, operation)])%list rest st
  end.

Fixpoint walkPathTable (paths : PathsObject) (st : S) : PathsObject * S :=
  match paths with
  | [] => ([], st)
  | (pattern, pathItem) :: rest =>
      let '(members, st) :=
        walkMembers pattern (pi_parameters pathItem) [] (pi_members pathItem) st in
      let '(rest, st) := walkPathTable rest st in
      ((pattern, mkPathItem (pi_parameters pathItem) members) :: rest, st)
  end.

Definition walkDocument (doc : Document) (st : S) : S :=
  match visitDocument visitor with
  | Some visit => visit doc st
  | None => st
  end.

Definition walkPaths (doc : Document) (paths : option PathsObject) (st : S)
    : option PathsObject * S :=
  match orElse paths (doc_paths doc) with
  | None => (None, st)
  | Some paths => let '(paths, st) := walkPathTable paths st in (Some paths, st)
  end.

Definition walkTags (doc : Document) (tags : option (list TagObject)) (st : S) : S :=
  match orElse tags (doc_tags doc) with
  | None => st
  | Some tags =>
      match visitTag visitor with
      | None => st
      | Some visit => fold_left (fun st tag => visit tag st) tags st
      end
  end.

(** [walk]: the document as the traversal leaves it, and the visitor's
    state. *)
Definition walk (doc : Document) (st : S) : Document * S :=
  let st := walkDocument doc st in
  let '(paths, st) := walkPaths doc None st in
  let doc := mkDocument paths (doc_tags doc) in
  let st := walkTags doc None st in
  let st := match finish visitor with Some f => f st | None => st end in
  (doc, st).
End Walk.
End Walker.

(** ** The specification's words

    Definitions the statements below are phrased with.  They follow the
    specification (or name what a piece of code decides) and are compared
    with the code by the theorems. *)

(** The content choice: prefer a JSON-compatible media type; else the
    wildcard media type; else the first media type in document order;
    else nothing. *)
Definition pickContent (content : Content) : option (MediaTypeObject * string) :=
  match List.find (fun entry => jsonRegexp entry.1) content with
  | Some (_, media) => Some (media, "application/json")
  | None =>
      match getKey content "*/*" with
      | Some media => Some (media, "*/*")
      | None =>
          match content with
          | (first, media) :: _ => Some (media, first)
          | [] => None
          end
      end
  end.

(** The style the code computes is [form]
    ([parameter.style || 'form']). *)
Definition effectiveForm (parameter : ParameterObject) : bool :=
  String.eqb (default "form" (orStr (p_style parameter) (Some "form"))) "form".


(** [parameter.explode === false] *)
Definition explodeOff (parameter : ParameterObject) : bool :=
  match p_explode parameter with
  | Some false => true
  | _ => false
  end.

(** The routing of an array query parameter: joined by commas for the
    form style without explode, one entry per item otherwise. *)
Definition arrayQueryRoutingOf (parameter : ParameterObject) : Routing :=
  {| r_send :=
       Some (mkSend "query" (p_name parameter)
               (Some (if effectiveForm parameter && explodeOff parameter
                      then joinedItems else explodedItems))
               (Some false));
     r_request := None |}.

(** The schema node of a parameter: attached, or that of its first
    JSON-compatible content entry. *)
Definition parameterSchemaNode (parameter : ParameterObject) : option Schema :=
  match p_schema parameter with
  | Some s => Some s
  | None =>
      c ← p_content parameter;
      entry ← List.find (fun entry => jsonRegexp entry.1) c;
      m_schema entry.2
  end.

(** The first JSON-compatible entry of a parameter's content map. *)
Definition jsonContent (parameter : ParameterObject) : option MediaTypeObject :=
  c ← p_content parameter;
  snd <$> List.find (fun entry => jsonRegexp entry.1) c.

(** The schema declares a non-empty enumeration. *)
Definition isChoice (so : SchemaObject) : bool :=
  match s_enum so with
  | Some (_ :: _) => true
  | _ => false
  end.

(** The presentation type is JSON text. *)
Definition isJson (type : option NodePropertyTypes) : bool :=
  match type with
  | Some NJson => true
  | _ => false
  end.

(** What the specification says of the descriptor of one declared
    property: named and addressed by the key, required exactly when the
    key is in the required set, typed as the property's schema compiles,
    parsed before it is sent when the type is JSON text and sent raw
    otherwise. *)
Definition describesProperty (fromSchema : option Schema -> Res INodeProperties)
    (schema : SchemaObject) (entry : string * Schema) (field : INodeProperties)
  : Prop :=
  exists compiled,
    fromSchema (Some entry.2) = Ok compiled
    /\ f_name field = Some (replaceDots entry.1)
    /\ f_required field
       = (if existsb (String.eqb entry.1) (default [] (s_required schema))
          then Some true else None)
    /\ f_type field = f_type compiled
    /\ f_default field = f_default compiled
    /\ f_routing field
       = Some {| r_send :=
                   Some (mkSend "body" entry.1
                           (Some (if isJson (f_type field)
                                  then parsedValue else rawValue))
                           (Some false));
                 r_request := None |}.


(** What the traversal leaves in place of a member of a path item. *)
Definition walkedMember {S} (HttpMethods : list string) (visitor : OpenAPIVisitor S)
    (parameters : option (list ParameterOrRef))
    (member : string * OperationObject) : string * OperationObject :=
  (member.1,
   if Walker.includes HttpMethods member.1
   then Walker.normalize visitor (default [] parameters) member.2
   else member.2).

Definition walkedPathItem {S} (HttpMethods : list string) (visitor : OpenAPIVisitor S)
    (entry : string * PathItemObject) : string * PathItemObject :=
  (entry.1,
   mkPathItem (pi_parameters entry.2)
     (map (walkedMember HttpMethods visitor (pi_parameters entry.2))
        (pi_members entry.2))).

(** [p] is a concrete parameter named [name]. *)
Definition isNamed (name : string) (p : ParameterOrRef) : bool :=
  match p with
  | PInline o => String.eqb (p_name o) name
  | PRef _ => false
  end.

(** What the walker's name set decides: a concrete path-level parameter is
    left out when its name is not empty and an operation-level concrete
    parameter has the same name. *)
Definition overriddenBy (operationParameters : list ParameterOrRef)
    (p : ParameterOrRef) : bool :=
  match p with
  | PInline o =>
      nonEmpty (p_name o) && existsb (isNamed (p_name o)) operationParameters
  | PRef _ => false
  end.

(** The calls of [visitOperation] that the inner loop makes, in order:
    the operation handed over and its context. *)
Fixpoint memberCalls {S} (HttpMethods : list string) (visitor : OpenAPIVisitor S)
    (pattern : string) (parameters : option (list ParameterOrRef))
    (done todo : list (string * OperationObject))
  : list (OperationObject * OperationContext) :=
  match todo with
  | [] => []
  | (method, operation) :: rest =>
      if Walker.includes HttpMethods method then
        let operation := Walker.normalize visitor (default [] parameters) operation in
        (operation,
         {| pattern := pattern;
            path := mkPathItem parameters (done ++ (method, operation) :: rest)%list;
            method := method |})
        :: memberCalls HttpMethods visitor pattern parameters
             (done ++ [(method, operation)])%list rest
      else
        memberCalls HttpMethods visitor pattern parameters
          (done ++ [(method, operation)])%list rest
  end.

Definition pathCalls {S} (HttpMethods : list string) (visitor : OpenAPIVisitor S)
    (paths : PathsObject) : list (OperationObject * OperationContext) :=
  flat_map (fun entry : string * PathItemObject =>
              memberCalls HttpMethods visitor entry.1 (pi_parameters entry.2) []
                (pi_members entry.2)) paths.

(** ** Collaborators for closed examples

    Documents without references: a concrete node resolves to itself, a
    reference is not found, [undefined] cannot be inspected.  The example
    of a schema is its own [example] key.  Strings are sequences of
    UTF-8 bytes. *)

Definition isAlnum (c : ascii) : bool :=
  let n := nat_of_ascii c in
  ((48 <=? n) && (n <=? 57) || (65 <=? n) && (n <=? 90)
   || (97 <=? n) && (n <=? 122))%nat.

Definition startsAlnum (s : string) : bool :=
  match s with
  | String c _ => isAlnum c
  | EmptyString => false
  end.

(** The maximal runs of ASCII letters and digits. *)
Fixpoint asciiWords (s : string) : list string :=
  match s with
  | EmptyString => []
  | String c rest =>
      let ws := asciiWords rest in
      if isAlnum c then
        if startsAlnum rest then
          match ws with
          | w :: ws' => String c w :: ws'
          | [] => [String c EmptyString]
          end
        else String c EmptyString :: ws
      else ws
  end.

Definition upperFirst (w : string) : string :=
  match w with
  | String c rest =>
      let n := nat_of_ascii c in
      String (if ((97 <=? n) && (n <=? 122))%nat then ascii_of_nat (n - 32) else c) rest
  | EmptyString => EmptyString
  end.

(** [lodash.startCase] on ASCII text whose words are separated by
    characters that are neither letters nor digits: the words, each with
    its first letter in upper case, joined by single spaces.  (lodash
    also breaks words at case and digit boundaries and folds accents; the
    examples below have none.) *)
Definition startCaseAscii (s : string) : string :=
  String.concat " " (map upperFirst (asciiWords s)).

(** lodash's [toString] on the values of the model. *)
Fixpoint lodashToString (v : value) : string :=
  match v with
  | VNull => EmptyString
  | VBool true => "true"
  | VBool false => "false"
  | VNum n => pretty n
  | VStr s => s
  | VArr elements => String.concat "," (map lodashToString elements)
  | VObj _ => "[object Object]"
  end.

Definition hexDigit (n : nat) : ascii :=
  ascii_of_nat (if (n <? 10)%nat then 48 + n else 55 + n).

(** [encodeURIComponent], byte by byte: the unreserved characters stay,
    every other byte becomes its percent escape. *)
Definition isUnreserved (c : ascii) : bool :=
  isAlnum c
  || existsb (Ascii.eqb c)
       ["-"; "_"; "."; "!"; "~"; "*"; "'"; "("; ")"]%char.

Fixpoint percentEncode (s : string) : string :=
  match s with
  | EmptyString => EmptyString
  | String c rest =>
      if isUnreserved c then String c (percentEncode rest)
      else
        let n := nat_of_ascii c in
        String "%"%char
          (String (hexDigit (n / 16)) (String (hexDigit (n mod 16))
             (percentEncode rest)))
  end.

(** The string literal of [JSON.stringify]: quotes around the text, with
    the quote, the backslash and the control characters escaped. *)
Fixpoint jsonEscape (s : string) : string :=
  match s with
  | EmptyString => EmptyString
  | String c rest =>
      let n := nat_of_ascii c in
      (if (n =? 34)%nat then "\" +:+ dq
       else if (n =? 92)%nat then "\\"
       else if (n =? 8)%nat then "\b"
       else if (n =? 12)%nat then "\f"
       else if (n =? 10)%nat then "\n"
       else if (n =? 13)%nat then "\r"
       else if (n =? 9)%nat then "\t"
       else if (n <? 32)%nat then
         "\u00" +:+ String (hexDigit (n / 16)) (String (hexDigit (n mod 16)) EmptyString)
       else String c EmptyString)
      +:+ jsonEscape rest
  end.

Definition jsonQuote (s : string) : string := dq +:+ jsonEscape s +:+ dq.

Definition newline : string := String (ascii_of_nat 10) EmptyString.

(** [JSON.stringify(v, null, 2)] at the indentation [indent]. *)
Fixpoint stringifyAt (indent : string) (v : value) : string :=
  let inner := indent +:+ "  " in
  match v with
  | VNull => "null"
  | VBool true => "true"
  | VBool false => "false"
  | VNum n => pretty n
  | VStr s => jsonQuote s
  | VArr [] => "[]"
  | VArr elements =>
      "[" +:+ newline +:+ inner
      +:+ String.concat ("," +:+ newline +:+ inner) (map (stringifyAt inner) elements)
      +:+ newline +:+ indent +:+ "]"
  | VObj [] => "{}"
  | VObj members =>
      "{" +:+ newline +:+ inner
      +:+ String.concat ("," +:+ newline +:+ inner)
            (map (fun member : string * value =>
                    jsonQuote member.1 +:+ ": " +:+ stringifyAt inner member.2)
               members)
      +:+ newline +:+ indent +:+ "}"
  end.

Definition plainCollaborators : Collaborators :=
  {| resolveSchema := fun node =>
       match node with
       | Some (SInline o) => Ok (Some o)
       | Some (SRef ref) => Throw (Error ("Schema not found for ref '" +:+ ref +:+ "'"))
       | None => Throw TypeError
       end;
     resolveParameter := fun node =>
       match node with
       | PInline o => Ok o
       | PRef ref => Throw (Error ("Schema not found for ref '" +:+ ref +:+ "'"))
       end;
     resolveRequestBody := fun node =>
       match node with
       | BInline o => Ok o
       | BRef ref => Throw (Error ("Schema not found for ref '" +:+ ref +:+ "'"))
       end;
     extractExample := fun schema => s_example schema;
     startCase := fun v => startCaseAscii (lodashToString v);
     encodeURIComponent := percentEncode;
     JSON_stringify := stringifyAt EmptyString |}.

(** [Object.values(OpenAPIV3.HttpMethods)] in openapi-types. *)
Definition openapiHttpMethods : list string :=
  ["get"; "put"; "post"; "delete"; "options"; "head"; "patch"; "trace"].

(** A visitor that implements [visitOperation] alone and keeps no state. *)
Definition silentListener : OpenAPIVisitor unit :=
  {| visitDocument := None;
     visitOperation := Some (fun _ _ st => st);
     visitTag := None;
     finish := None |}.

(** ** Sample documents *)

(** [{type: ...}] *)
Definition schemaOfType (type : string) : SchemaObject :=
  mkSchemaObject (Some type) None None None None None None.

(** [{type: string, enum: [a_b, c]}] *)
Definition stringEnumSchema : SchemaObject :=
  mkSchemaObject (Some "string") None (Some [VStr "a_b"; VStr "c"]) None None None None.

(** [{type: boolean, enum: [true, false]}] *)
Definition booleanEnumSchema : SchemaObject :=
  mkSchemaObject (Some "boolean") None (Some [VBool true; VBool false])
    None None None None.

(** [{type: number, enum: [1, 2], example: 0}] *)
Definition zeroExampleEnumSchema : SchemaObject :=
  mkSchemaObject (Some "number") None (Some [VNum 1; VNum 2]) None None None
    (Some (VNum 0)).

(** [{type: object, properties: {a: {type: string}, b: {type: object}},
    required: [a]}] *)
Definition abBodySchema : SchemaObject :=
  mkSchemaObject (Some "object") None None
    (Some [("a", SInline (schemaOfType "string"));
           ("b", SInline (schemaOfType "object"))])
    (Some ["a"]) None None.


(** A body that offers plain text and, under the wildcard, [abBodySchema]. *)
Definition wildcardBody : RequestBodyObject :=
  mkRequestBody
    (Some [("text/plain", mkMediaType (Some (SInline (schemaOfType "string"))));
           ("*/*", mkMediaType (Some (SInline abBodySchema)))])
    None.

(** A body without content map. *)
Definition bodyWithoutContent : RequestBodyObject := mkRequestBody None None.



(** A path parameter that declares [required: false]. *)
Definition idParameter : ParameterObject :=
  {| p_name := "id"; p_in := "path"; p_required := Some false;
     p_description := None; p_example := None;
     p_schema := Some (SInline (schemaOfType "string"));
     p_content := None; p_style := None; p_explode := None |}.

(** A parameter with neither schema nor content. *)
Definition bareParameter : ParameterObject :=
  {| p_name := "p"; p_in := "query"; p_required := None;
     p_description := None; p_example := None;
     p_schema := None; p_content := None; p_style := None; p_explode := None |}.

(** A parameter whose content is plain text only. *)
Definition textOnlyParameter : ParameterObject :=
  {| p_name := "p"; p_in := "query"; p_required := None;
     p_description := None; p_example := None;
     p_schema := None;
     p_content := Some [("text/plain",
                         mkMediaType (Some (SInline (schemaOfType "string"))))];
     p_style := None; p_explode := None |}.

(** One path with three operations: no tag list, an empty one, a tag. *)
Definition untaggedDocument : Document :=
  {| doc_paths := Some
       [("/pets",
         mkPathItem None
           [("get", mkOperation None None None);
            ("post", mkOperation (Some []) None None);
            ("delete", mkOperation (Some ["pets"]) None None)])];
     doc_tags := None |}.

(** Query parameters with the empty name and with the name [x]. *)
Definition emptyNamed (description : string) : ParameterObject :=
  {| p_name := EmptyString; p_in := "query"; p_required := None;
     p_description := Some description; p_example := None;
     p_schema := Some (SInline (schemaOfType "string"));
     p_content := None; p_style := None; p_explode := None |}.

Definition xNamed (description : string) : ParameterObject :=
  {| p_name := "x"; p_in := "query"; p_required := None;
     p_description := Some description; p_example := None;
     p_schema := Some (SInline (schemaOfType "string"));
     p_content := None; p_style := None; p_explode := None |}.

(** A path item and its [get] operation, each with one parameter of the
    same name. *)
Definition sharedNameDocument (named : string -> ParameterObject) : Document :=
  {| doc_paths := Some
       [("/items",
         mkPathItem (Some [PInline (named "path scope")])
           [("get", mkOperation (Some ["items"])
                      (Some [PInline (named "operation scope")]) None)])];
     doc_tags := None |}.

(** ** Words for the further properties *)

(** The handlers of a visitor, an absent one doing nothing. *)
Definition documentHandler {S} (visitor : OpenAPIVisitor S) : Document -> S -> S :=
  default (fun _ st => st) (visitDocument visitor).

Definition operationHandler {S} (visitor : OpenAPIVisitor S)
  : OperationObject -> OperationContext -> S -> S :=
  default (fun _ _ st => st) (visitOperation visitor).

Definition tagHandler {S} (visitor : OpenAPIVisitor S) : TagObject -> S -> S :=
  default (fun _ st => st) (visitTag visitor).

Definition finishHandler {S} (visitor : OpenAPIVisitor S) : S -> S :=
  default (fun st => st) (finish visitor).

(** A path-level parameter that a second merge lets through again: a
    reference, or a concrete parameter with the empty name. *)
Definition survivesRemerge (p : ParameterOrRef) : bool :=
  match p with
  | PRef _ => true
  | PInline o => negb (nonEmpty (p_name o))
  end.

(** A visitor that records the operations it is handed. *)
Definition recorder : OpenAPIVisitor (list (OperationObject * OperationContext)) :=
  {| visitDocument := None;
     visitOperation := Some (fun operation context st => st ++ [(operation, context)])%list;
     visitTag := None;
     finish := None |}.

(** A path item with a reference and the parameter [x] at path level, a
    [get] operation without parameters, and a member that is no HTTP
    method. *)
Definition referenceDocument : Document :=
  {| doc_paths := Some
       [("/items",
         mkPathItem
           (Some [PRef "#/components/parameters/limit";
                  PInline (xNamed "path scope")])
           [("x-internal", mkOperation None None None);
            ("get", mkOperation (Some ["items"]) None None)])];
     doc_tags := Some [mkTag "items" None] |}.

(** The first source that defines a key. *)
Definition firstDefined {A} (key : INodeProperties -> option A)
    (sources : list INodeProperties) : option A :=
  foldr (fun source later => orElse (key source) later) None sources.

(** The kinds of the type switch of [fromSchema]: no kind, or one of the
    six it names. *)
Definition knownKind (type : option string) : bool :=
  negb (defined type) || isStr type "boolean" || isStr type "string"
  || isStr type "object" || isStr type "array" || isStr type "number"
  || isStr type "integer".

(** The parameter-level facts laid over a compiled schema: label and
    machine name from the parameter's name, the parameter's description
    and example before those of the schema, type and options from the
    schema. *)
Definition overlays `{!Collaborators} (parameter : ParameterObject)
    (compiled field : INodeProperties) : Prop :=
  f_displayName field = Some (startCase (VStr (p_name parameter)))
  /\ f_name field = Some (encodeURIComponent (replaceDots (p_name parameter)))
  /\ f_description field
     = (if truthyStr (p_description parameter) then p_description parameter
        else f_description compiled)
  /\ f_default field = orElse (p_example parameter) (f_default compiled)
  /\ f_type field = f_type compiled
  /\ f_options field = f_options compiled.

(** Required flag and routing by location, for a parameter that is no
    array query parameter. *)
Definition routedByLocation (parameter : ParameterObject) (field : INodeProperties)
  : Prop :=
  f_required field
  = (if String.eqb (p_in parameter) "path" || truthyBool (p_required parameter)
     then Some true else None)
  /\ f_routing field
     = if String.eqb (p_in parameter) "query" then
         Some {| r_send := Some (mkSend "query" (p_name parameter)
                                   (Some rawValue) (Some false));
                 r_request := None |}
       else if String.eqb (p_in parameter) "header" then
         Some {| r_send := None;
                 r_request := Some
                   {| request_headers := Some [(p_name parameter, rawValue)];
                      request_body := None |} |}
       else None.

(** A header parameter with a description and an example of its own, on a
    schema that has a description too. *)
Definition traceParameter : ParameterObject :=
  {| p_name := "x.trace id"; p_in := "header"; p_required := Some true;
     p_description := Some "Trace of the caller";
     p_example := Some (VStr "abc");
     p_schema := Some (SInline
       (mkSchemaObject (Some "string") (Some "Any text") None None None None
          (Some (VStr "zzz"))));
     p_content := None; p_style := None; p_explode := None |}.

(** A cookie parameter. *)
Definition cookieParameter : ParameterObject :=
  {| p_name := "session"; p_in := "cookie"; p_required := None;
     p_description := None; p_example := None;
     p_schema := Some (SInline (schemaOfType "string"));
     p_content := None; p_style := None; p_explode := None |}.

(** A query parameter whose array schema names no items. *)
Definition looseArrayParameter : ParameterObject :=
  {| p_name := "ids"; p_in := "query"; p_required := None;
     p_description := None; p_example := None;
     p_schema := Some (SInline (schemaOfType "array"));
     p_content := None; p_style := None; p_explode := None |}.

(** [{type: object, example: {a: 1}}] *)
Definition exampleObjectSchema : SchemaObject :=
  mkSchemaObject (Some "object") None None None None None
    (Some (VObj [("a", VNum 1)])).

(** The default of the collection of an array query parameter: one item
    per element of an example that is a non-empty array, and the empty
    object otherwise. *)
Definition collectionDefault (example : option value) : value :=
  match example with
  | Some (VArr (v :: vs)) =>
      VObj [("items", VArr (map (fun val => VObj [("value", val)]) (v :: vs)))]
  | _ => VObj []
  end.

(** The description of the sub-field of the collection. *)
Definition itemDescription (itemsSchema : SchemaObject) : string :=
  if truthyStr (s_description itemsSchema)
  then default EmptyString (s_description itemsSchema)
  else "Item value (" +:+ default "any" (orStr (s_type itemsSchema) (Some "any"))
       +:+ ")".

(** A query parameter [ids]: integers, with two of them as the example of
    the schema. *)
Definition idsParameter : ParameterObject :=
  {| p_name := "ids"; p_in := "query"; p_required := Some true;
     p_description := None; p_example := None;
     p_schema := Some (SInline
       (mkSchemaObject (Some "array") (Some "Identifiers") None None None
          (Some (SInline (schemaOfType "integer")))
          (Some (VArr [VNum 4; VNum 2]))));
     p_content := None; p_style := None; p_explode := None |}.

(** What [fromArrayQueryParameter] makes of an array query parameter: a
    collection with multiple values and the single sub-field [value]. *)
Definition isCollectionOf `{!Collaborators} (parameter : ParameterObject)
    (schema itemsSchema : SchemaObject) (itemDefault : option value)
    (field : INodeProperties) : Prop :=
  f_type field = Some NFixedCollection
  /\ f_typeOptions field = Some {| multipleValues := true |}
  /\ f_default field
     = orElse (p_example parameter)
         (Some (collectionDefault (extractExample schema)))
  /\ f_options field
     = Some [Collection "items" "Items"
               [ {| i_displayName := "Value";
                    i_name := "value";
                    i_type := Shared.getArrayItemType itemsSchema;
                    i_default := itemDefault;
                    i_description := itemDescription itemsSchema |} ]].

(** The default of the kind of an item: [false], [0] or the empty text. *)
Definition kindDefault (kind : NodePropertyTypes) : value :=
  match kind with
  | NBoolean => VBool false
  | NNumber => VNum 0
  | _ => VStr EmptyString
  end.

(** What [fromSchemaProperty] makes of a key and the compiled schema of
    its property: label and machine name from the key, the rest from the
    schema, neither required flag nor routing. *)
Definition namesProperty `{!Collaborators} (key : string)
    (compiled field : INodeProperties) : Prop :=
  f_displayName field = Some (startCase (VStr key))
  /\ f_name field = Some (replaceDots key)
  /\ f_description field = f_description compiled
  /\ f_default field = f_default compiled
  /\ f_type field = f_type compiled
  /\ f_options field = f_options compiled
  /\ f_required field = None
  /\ f_routing field = None.

(** The routing of a field that is the whole body of the request. *)
Definition wholeBodyRouting (expression : string) : Routing :=
  {| r_send := None;
     r_request := Some {| request_headers := None;
                          request_body := Some expression |} |}.

(** The routing of a binary upload. *)
Definition uploadRouting : Routing :=
  {| r_send := Some (mkSend "body" "$value" None None);
     r_request := Some
       {| request_headers := Some [("Content-Type", binaryMimeType)];
          request_body := None |} |}.

(** The scalar kinds of a body schema. *)
Definition scalarKinds : list (option string) :=
  [Some "string"; Some "number"; Some "integer"; Some "boolean"].

(** The message for a body schema of a kind that is not supported; an
    absent kind reads [undefined]. *)
Definition notSupported (kind : option string) : exn :=
  Error ("Request body schema type '" +:+ default "undefined" kind
         +:+ "' not supported").

(** A body whose content is the schema [schema] under [mediaType]. *)
Definition bodyOf (mediaType : string) (schema : SchemaObject)
    (required : option bool) : RequestBodyObject :=
  mkRequestBody (Some [(mediaType, mkMediaType (Some (SInline schema)))]) required.

(** [{type: array, items: {type: integer}}] *)
Definition integersSchema : SchemaObject :=
  mkSchemaObject (Some "array") None None None None
    (Some (SInline (schemaOfType "integer"))) None.

(** [{type: array, items: {type: integer}, properties: {a: {type: string}}}] *)
Definition integersAndPropertiesSchema : SchemaObject :=
  mkSchemaObject (Some "array") None None
    (Some [("a", SInline (schemaOfType "string"))]) None
    (Some (SInline (schemaOfType "integer"))) None.

(** A schema without any keyword. *)
Definition anySchema : SchemaObject :=
  mkSchemaObject None None None None None None None.

(** The single field of a body that is an array: the compiled schema of
    the items under the name [body], parsed before it is sent. *)
Definition parsedBodyField `{!Collaborators} (required : option bool)
    (compiled : INodeProperties) : INodeProperties :=
  {| f_displayName := Some (startCase (VStr "body"));
     f_name := Some "body";
     f_required := if truthyBool required then Some true else None;
     f_description := f_description compiled;
     f_default := f_default compiled;
     f_type := f_type compiled;
     f_options := f_options compiled;
     f_typeOptions := None;
     f_routing := Some (wholeBodyRouting parsedValue) |}.

(** * Properties *)

(** ** The error monad and the helpers *)

Lemma bind_Ok {A B} (a : A) (k : A -> Res B) : Ok a ≫= k = k a.
Proof. reflexivity. Qed.

Lemma bind_Ok_inv {A B} (m : Res A) (k : A -> Res B) (b : B) :
  m ≫= k = Ok b -> exists a, m = Ok a /\ k a = Ok b.
Proof. destruct m as [a|e]; [eauto | discriminate]. Qed.

Lemma jsonRegexp_nonEmpty key : jsonRegexp key = true -> nonEmpty key = true.
Proof. destruct key; [discriminate | reflexivity]. Qed.

Lemma find_keys {A} (regexp : string -> bool) (obj : list (string * A)) :
  List.find regexp (keys obj) = fst <$> List.find (fun entry => regexp entry.1) obj.
Proof.
  induction obj as [|[k v] obj IH]; simpl; [reflexivity|].
  destruct (regexp k); [reflexivity | exact IH].
Qed.

Lemma getKey_find {A} (regexp : string -> bool) (obj : list (string * A)) k v :
  List.find (fun entry => regexp entry.1) obj = Some (k, v) -> getKey obj k = Some v.
Proof.
  induction obj as [|[k' v'] obj IH]; simpl; [discriminate|].
  destruct (regexp k') eqn:Hk'.
  - intros [= -> ->]. now rewrite String.eqb_refl.
  - intros Hfind. destruct (String.eqb_spec k' k) as [->|_]; [|auto].
    apply find_some in Hfind as [_ Hk]. simpl in Hk. congruence.
Qed.

(** [findKey] returns the value of the first entry whose key matches. *)
Lemma findKey_json {A} (obj : list (string * A)) :
  findKey (Some obj) jsonRegexp
  = Ok (snd <$> List.find (fun entry => jsonRegexp entry.1) obj).
Proof.
  unfold findKey. simpl. rewrite find_keys.
  destruct (List.find _ obj) as [[k v]|] eqn:Hfind; simpl; [|reflexivity].
  rewrite (getKey_find _ _ _ _ Hfind).
  apply find_some in Hfind as [_ Hk]. simpl in Hk.
  now rewrite (jsonRegexp_nonEmpty _ Hk).
Qed.

(** ** Request bodies *)

(** C10. [fromRequestBody] of an absent request body and [fromParameters]
    of an absent parameter list return the empty list and raise nothing,
    in both listings and whatever the collaborators are. *)
Theorem absent_input_gives_no_fields `{!Collaborators} :
  SparseDefaults.fromRequestBody None = Ok []
  /\ SparseDefaults.fromParameters None = Ok []
  /\ ConcreteDefaults.fromRequestBody None = Ok []
  /\ ConcreteDefaults.fromParameters None = Ok [].
Proof. repeat split; reflexivity. Qed.

(** The first listing's choice of content is [pickContent]. *)
Lemma SparseDefaults_fromRequestBody_pick `{!Collaborators} body b c :
  resolveRequestBody body = Ok b ->
  b_content b = Some c ->
  SparseDefaults.fromRequestBody (Some body)
  = match pickContent c with
    | Some (media, contentType) => SparseDefaults.compileContent b media contentType
    | None => Throw (Error "No content found in request body")
    end.
Proof.
  intros Hbody Hc. unfold SparseDefaults.fromRequestBody, pickContent.
  rewrite Hbody, bind_Ok; cbn beta. rewrite Hc, findKey_json, bind_Ok; cbn beta.
  destruct (List.find _ c) as [[k m]|]; simpl; [reflexivity|].
  destruct (getKey c "*/*") as [m|]; simpl; [reflexivity|].
  destruct c as [|[k m] c']; simpl; [reflexivity|].
  now rewrite String.eqb_refl.
Qed.

(** The second listing knows JSON-compatible content only. *)
Lemma ConcreteDefaults_fromRequestBody_json `{!Collaborators} body b c :
  resolveRequestBody body = Ok b ->
  b_content b = Some c ->
  ConcreteDefaults.fromRequestBody (Some body)
  = match List.find (fun entry => jsonRegexp entry.1) c with
    | Some (_, media) => ConcreteDefaults.compileContent b media
    | None => Throw (Error "No '/application\/json.*/' content found")
    end.
Proof.
  intros Hbody Hc. unfold ConcreteDefaults.fromRequestBody.
  rewrite Hbody, bind_Ok; cbn beta. rewrite Hc, findKey_json, bind_Ok; cbn beta.
  now destruct (List.find _ c) as [[k m]|].
Qed.

Lemma pickContent_None c : pickContent c = None <-> c = [].
Proof.
  split; [|now intros ->].
  unfold pickContent. destruct (List.find _ c) as [[k m]|]; [discriminate|].
  destruct (getKey c "*/*"); [discriminate|].
  now destruct c as [|[k m] c'].
Qed.

(** C2, as the two listings have it.  For a resolved body with a content
    map, the first listing compiles the entry [pickContent] names: the
    first JSON-compatible entry, else the entry of the wildcard media
    type, else the first entry; it raises the explicit error exactly when
    the map is empty.  The second listing compiles the first
    JSON-compatible entry and raises an explicit error when there is
    none. *)
Theorem request_body_content_choice `{!Collaborators} body b c :
  resolveRequestBody body = Ok b ->
  b_content b = Some c ->
  SparseDefaults.fromRequestBody (Some body)
  = match pickContent c with
    | Some (media, contentType) => SparseDefaults.compileContent b media contentType
    | None => Throw (Error "No content found in request body")
    end
  /\ (pickContent c = None <-> c = [])
  /\ ConcreteDefaults.fromRequestBody (Some body)
     = match List.find (fun entry => jsonRegexp entry.1) c with
       | Some (_, media) => ConcreteDefaults.compileContent b media
       | None => Throw (Error "No '/application\/json.*/' content found")
       end.
Proof.
  intros Hbody Hc. split; [|split].
  - now apply SparseDefaults_fromRequestBody_pick.
  - apply pickContent_None.
  - now apply ConcreteDefaults_fromRequestBody_json.
Qed.

(** A body that offers [text/plain] and the wildcard: the first listing
    compiles the wildcard entry. *)
Lemma request_body_content_choice_witness :
  SparseDefaults.fromRequestBody (H := plainCollaborators) (Some (BInline wildcardBody))
  = SparseDefaults.compileContent (H := plainCollaborators) wildcardBody
      (mkMediaType (Some (SInline abBodySchema))) "*/*".
Proof.
  exact (proj1 (request_body_content_choice (H := plainCollaborators)
                  (BInline wildcardBody) wildcardBody _ eq_refl eq_refl)).
Defined.

(** The same body in the second listing: the wildcard entry is there, and
    the body is rejected. *)
Lemma second_listing_ignores_wildcard :
  pickContent (default [] (b_content wildcardBody))
  = Some (mkMediaType (Some (SInline abBodySchema)), "*/*")
  /\ ConcreteDefaults.fromRequestBody (H := plainCollaborators)
       (Some (BInline wildcardBody))
     = Throw (Error "No '/application\/json.*/' content found").
Proof. split; reflexivity. Qed.

(** ** Schemas *)

(** [fromSchema] of the first listing on a schema that resolves. *)
Lemma SparseDefaults_fromSchema_resolved `{!Collaborators} schema so :
  resolveSchema schema = Ok (Some so) ->
  SparseDefaults.fromSchema schema
  = Ok match s_enum so with
       | Some (e :: es) =>
           {| f_displayName := None; f_name := None; f_required := None;
              f_description := s_description so;
              f_default :=
                match (SparseDefaults.typeAndDefault so).2 with
                | Some d => Some d
                | None => Some e
                end;
              f_type := Some NOptions;
              f_options := Some (map (fun v => Choice (startCase v) v) (e :: es));
              f_typeOptions := None; f_routing := None |}
       | _ =>
           {| f_displayName := None; f_name := None; f_required := None;
              f_description := s_description so;
              f_default := (SparseDefaults.typeAndDefault so).2;
              f_type := (SparseDefaults.typeAndDefault so).1;
              f_options := None; f_typeOptions := None; f_routing := None |}
       end.
Proof.
  intros Hres. unfold SparseDefaults.fromSchema.
  rewrite Hres, bind_Ok; cbn [deref]; rewrite bind_Ok.
  destruct (SparseDefaults.typeAndDefault so) as [type dflt]; simpl.
  now destruct (s_enum so) as [[|e es]|].
Qed.

(** [fromSchema] of the second listing on a schema that resolves. *)
Lemma ConcreteDefaults_fromSchema_resolved `{!Collaborators} schema so :
  resolveSchema schema = Ok (Some so) ->
  ConcreteDefaults.fromSchema schema
  = Ok match s_enum so with
       | Some (e :: es) =>
           {| f_displayName := None; f_name := None; f_required := None;
              f_description := s_description so;
              f_default :=
                if truthyOpt (ConcreteDefaults.typeAndDefault so).2
                then (ConcreteDefaults.typeAndDefault so).2
                else Some e;
              f_type := Some NOptions;
              f_options := Some (map (fun v => Choice (startCase v) v) (e :: es));
              f_typeOptions := None; f_routing := None |}
       | _ =>
           {| f_displayName := None; f_name := None; f_required := None;
              f_description := s_description so;
              f_default := (ConcreteDefaults.typeAndDefault so).2;
              f_type := (ConcreteDefaults.typeAndDefault so).1;
              f_options := None; f_typeOptions := None; f_routing := None |}
       end.
Proof.
  intros Hres. unfold ConcreteDefaults.fromSchema.
  rewrite Hres, bind_Ok; cbn [deref]; rewrite bind_Ok.
  destruct (ConcreteDefaults.typeAndDefault so) as [type dflt]; simpl.
  now destruct (s_enum so) as [[|e es]|].
Qed.

(** C3, as the two listings have it.  A schema that resolves to the
    boolean kind and has no example compiles, in either listing, to a
    field of boolean type, or of the choice type when the schema declares
    a non-empty enumeration; its default is [false] in the first listing
    and [true] in the second. *)
Theorem boolean_schema_default `{!Collaborators} schema so :
  resolveSchema schema = Ok (Some so) ->
  s_type so = Some "boolean" ->
  extractExample so = None ->
  exists sparse concrete,
    SparseDefaults.fromSchema schema = Ok sparse
    /\ ConcreteDefaults.fromSchema schema = Ok concrete
    /\ f_type sparse = (if isChoice so then Some NOptions else Some NBoolean)
    /\ f_type concrete = (if isChoice so then Some NOptions else Some NBoolean)
    /\ f_default sparse = Some (VBool false)
    /\ f_default concrete = Some (VBool true).
Proof.
  intros Hres Htype Hexample.
  rewrite (SparseDefaults_fromSchema_resolved _ _ Hres),
    (ConcreteDefaults_fromSchema_resolved _ _ Hres).
  unfold SparseDefaults.typeAndDefault, ConcreteDefaults.typeAndDefault, isChoice.
  rewrite Htype, Hexample. simpl.
  do 2 eexists. split; [reflexivity|]. split; [reflexivity|].
  now destruct (s_enum so) as [[|e es]|].
Qed.

(** A plain boolean schema: a toggle, off in the first listing. *)
Lemma boolean_schema_default_witness :
  exists sparse concrete,
    SparseDefaults.fromSchema (H := plainCollaborators)
      (Some (SInline (schemaOfType "boolean"))) = Ok sparse
    /\ ConcreteDefaults.fromSchema (H := plainCollaborators)
         (Some (SInline (schemaOfType "boolean"))) = Ok concrete
    /\ f_type sparse = Some NBoolean
    /\ f_type concrete = Some NBoolean
    /\ f_default sparse = Some (VBool false)
    /\ f_default concrete = Some (VBool true).
Proof.
  exact (boolean_schema_default (H := plainCollaborators)
           (Some (SInline (schemaOfType "boolean"))) (schemaOfType "boolean")
           eq_refl eq_refl eq_refl).
Defined.

(** The second listing switches the toggle on, and an enumeration on a
    boolean schema takes the boolean type away in the first. *)
Lemma boolean_default_true_or_choice :
  (exists concrete,
     ConcreteDefaults.fromSchema (H := plainCollaborators)
       (Some (SInline (schemaOfType "boolean"))) = Ok concrete
     /\ f_default concrete = Some (VBool true)
     /\ f_default concrete <> Some (VBool false))
  /\ (exists sparse,
        SparseDefaults.fromSchema (H := plainCollaborators)
          (Some (SInline booleanEnumSchema)) = Ok sparse
        /\ f_type sparse = Some NOptions
        /\ f_type sparse <> Some NBoolean).
Proof.
  split; eexists; (split; [reflexivity|]); split; [reflexivity|discriminate
                                                  |reflexivity|discriminate].
Qed.

(** C4, as the two listings have it.  A schema that resolves and declares
    a non-empty enumeration compiles to a field of the choice type whose
    options are the literals in order, each labelled by [startCase] of
    the literal and valued by the literal.  In the first listing the
    default is the default of the type switch when there is one, else the
    first literal; in the second listing it is the default of the type
    switch when that is truthy, else the first literal.  For
    [{type: string, enum: [a_b, c]}] without example, and a [startCase]
    that gives [A B] and [C], both listings give the options [A B] and
    [C] and the default [a_b]. *)
Theorem enum_override `{!Collaborators} schema so e es :
  resolveSchema schema = Ok (Some so) ->
  s_enum so = Some (e :: es) ->
  SparseDefaults.fromSchema schema
  = Ok {| f_displayName := None; f_name := None; f_required := None;
          f_description := s_description so;
          f_default :=
            match (SparseDefaults.typeAndDefault so).2 with
            | Some d => Some d
            | None => Some e
            end;
          f_type := Some NOptions;
          f_options := Some (map (fun v => Choice (startCase v) v) (e :: es));
          f_typeOptions := None; f_routing := None |}
  /\ ConcreteDefaults.fromSchema schema
     = Ok {| f_displayName := None; f_name := None; f_required := None;
             f_description := s_description so;
             f_default :=
               if truthyOpt (ConcreteDefaults.typeAndDefault so).2
               then (ConcreteDefaults.typeAndDefault so).2
               else Some e;
             f_type := Some NOptions;
             f_options := Some (map (fun v => Choice (startCase v) v) (e :: es));
             f_typeOptions := None; f_routing := None |}
  /\ (s_type so = Some "string" ->
      e = VStr "a_b" -> es = [VStr "c"] ->
      extractExample so = None ->
      startCase (VStr "a_b") = "A B" -> startCase (VStr "c") = "C" ->
      let field :=
        {| f_displayName := None; f_name := None; f_required := None;
           f_description := s_description so;
           f_default := Some (VStr "a_b");
           f_type := Some NOptions;
           f_options := Some [Choice "A B" (VStr "a_b"); Choice "C" (VStr "c")];
           f_typeOptions := None; f_routing := None |} in
      SparseDefaults.fromSchema schema = Ok field
      /\ ConcreteDefaults.fromSchema schema = Ok field).
Proof.
  intros Hres Henum.
  rewrite (SparseDefaults_fromSchema_resolved _ _ Hres),
    (ConcreteDefaults_fromSchema_resolved _ _ Hres), Henum.
  split; [reflexivity|]. split; [reflexivity|].
  intros Htype -> -> Hexample Hab Hc.
  unfold SparseDefaults.typeAndDefault, ConcreteDefaults.typeAndDefault.
  rewrite Htype, Hexample. simpl. rewrite Hab, Hc. split; reflexivity.
Qed.

(** The enumeration of the specification's example, with the ASCII
    [startCase]. *)
Lemma enum_override_witness :
  let field :=
    {| f_displayName := None; f_name := None; f_required := None;
       f_description := None;
       f_default := Some (VStr "a_b");
       f_type := Some NOptions;
       f_options := Some [Choice "A B" (VStr "a_b"); Choice "C" (VStr "c")];
       f_typeOptions := None; f_routing := None |} in
  SparseDefaults.fromSchema (H := plainCollaborators)
    (Some (SInline stringEnumSchema)) = Ok field
  /\ ConcreteDefaults.fromSchema (H := plainCollaborators)
       (Some (SInline stringEnumSchema)) = Ok field.
Proof.
  exact (proj2 (proj2 (enum_override (H := plainCollaborators)
                         (Some (SInline stringEnumSchema)) stringEnumSchema
                         (VStr "a_b") [VStr "c"] eq_refl eq_refl))
           eq_refl eq_refl eq_refl eq_refl eq_refl eq_refl).
Defined.

(** In the second listing an example of [0] is a default before the
    override and is replaced by the first literal all the same. *)
Lemma second_listing_drops_falsy_default :
  (ConcreteDefaults.typeAndDefault (H := plainCollaborators)
     zeroExampleEnumSchema).2 = Some (VNum 0)
  /\ exists concrete,
       ConcreteDefaults.fromSchema (H := plainCollaborators)
         (Some (SInline zeroExampleEnumSchema)) = Ok concrete
       /\ f_default concrete = Some (VNum 1)
       /\ f_default concrete <> Some (VNum 0).
Proof.
  split; [reflexivity|]. eexists. split; [reflexivity|].
  split; [reflexivity|discriminate].
Qed.

(** ** Parameters *)

Lemma getArrayQueryRouting_spec parameter schema :
  Shared.getArrayQueryRouting parameter schema = arrayQueryRoutingOf parameter.
Proof.
  unfold Shared.getArrayQueryRouting, arrayQueryRoutingOf, effectiveForm, explodeOff.
  destruct (String.eqb _ "form"); [|reflexivity].
  now destruct (p_explode parameter) as [[|]|].
Qed.

Lemma dropFalsyRequired_set field :
  f_required (dropFalsyRequired field) = None
  \/ f_required (dropFalsyRequired field) = Some true.
Proof. simpl. destruct (f_required field) as [[|]|]; simpl; auto. Qed.

Lemma arrayQuerySchema_array po so :
  p_in po = "query" ->
  s_type so = Some "array" ->
  Shared.arrayQuerySchema po (Some so) = Some so.
Proof. intros Hin Harr. unfold Shared.arrayQuerySchema. now rewrite Hin, Harr. Qed.

Lemma arrayQuerySchema_path po schema :
  p_in po = "path" ->
  Shared.arrayQuerySchema po schema = None.
Proof. intros Hin. unfold Shared.arrayQuerySchema. now rewrite Hin. Qed.

Section SharedParameterFacts.
Context `{!Collaborators}.
Variable fromSchema : option Schema -> Res INodeProperties.
Variable getArrayItemDefault : SchemaObject -> option value.

Abbreviation fromParameter := (Shared.fromParameter fromSchema getArrayItemDefault).

(** The two look-ups of the schema node in [fromParameter] agree with
    [parameterSchemaNode]. *)
Lemma fromParameter_schema_found p po s f0 :
  resolveParameter p = Ok po ->
  parameterSchemaNode po = Some s ->
  fromSchema (Some s) = Ok f0 ->
  fromParameter p
  = (schema ← resolveSchema (Some s);
     let isArrayQueryParam := Shared.arrayQuerySchema po schema in
     fieldSchemaKeys ←
       match isArrayQueryParam with
       | Some so => Shared.fromArrayQueryParameter getArrayItemDefault so po
       | None => Ok f0
       end;
     let fieldParameterKeys :=
       {| f_displayName := Some (startCase (VStr (p_name po)));
          f_name := Some (encodeURIComponent (replaceDots (p_name po)));
          f_required := p_required po;
          f_description :=
            if truthyStr (p_description po) then p_description po else None;
          f_default := p_example po;
          f_type := None; f_options := None; f_typeOptions := None;
          f_routing := None |} in
     let field := combine [fieldParameterKeys; fieldSchemaKeys] in
     field ←
       (if String.eqb (p_in po) "query" then
          match isArrayQueryParam with
          | Some so => Ok (setRouting (Shared.getArrayQueryRouting po so) field)
          | None =>
              Ok (setRouting
                    {| r_send := Some (mkSend "query" (p_name po)
                                         (Some rawValue) (Some false));
                       r_request := None |} field)
          end
        else if String.eqb (p_in po) "path" then
          Ok (setRequired (Some true) field)
        else if String.eqb (p_in po) "header" then
          Ok (setRouting
                {| r_send := None;
                   r_request := Some
                     {| request_headers := Some [(p_name po, rawValue)];
                        request_body := None |} |} field)
        else
          Throw (Error ("Unknown parameter location '" +:+ p_in po +:+ "'")));
     Ok (dropFalsyRequired field)).
Proof.
  intros Hp Hnode Hf0. unfold fromParameter, Shared.fromParameter.
  rewrite Hp, bind_Ok; cbn beta.
  unfold parameterSchemaNode in Hnode.
  destruct (p_schema po) as [s'|] eqn:Hschema.
  - injection Hnode as ->. rewrite Hf0. reflexivity.
  - destruct (p_content po) as [c|] eqn:Hcontent; [|discriminate].
    simpl in Hnode. rewrite bind_Ok; cbn beta. rewrite !findKey_json.
    destruct (List.find _ c) as [[k m]|]; [|discriminate].
    simpl in Hnode. simpl. rewrite Hnode, Hf0. reflexivity.
Qed.


(** What a returned descriptor is made of. *)
Lemma fromParameter_Ok_inv p field :
  fromParameter p = Ok field ->
  exists po field0,
    resolveParameter p = Ok po
    /\ field = dropFalsyRequired field0
    /\ (p_in po = "path" -> f_required field0 = Some true).
Proof.
  unfold Shared.fromParameter. intros Hok.
  apply bind_Ok_inv in Hok as (po & Hp & Hok).
  apply bind_Ok_inv in Hok as (k1 & _ & Hok).
  apply bind_Ok_inv in Hok as (k2 & _ & Hok).
  destruct k2 as [k2|]; [|discriminate].
  apply bind_Ok_inv in Hok as (node & _ & Hok).
  apply bind_Ok_inv in Hok as (schema & _ & Hok).
  apply bind_Ok_inv in Hok as (k3 & _ & Hok).
  apply bind_Ok_inv in Hok as (field0 & Hfield0 & Hok).
  injection Hok as <-. exists po, field0. split; [exact Hp|]. split; [reflexivity|].
  intros Hin. rewrite Hin in Hfield0.
  replace (String.eqb "path" "query") with false in Hfield0 by reflexivity.
  replace (String.eqb "path" "path") with true in Hfield0 by reflexivity.
  cbn iota in Hfield0. now injection Hfield0 as <-.
Qed.

Lemma fromParameter_required_only_true p field :
  fromParameter p = Ok field ->
  f_required field = None \/ f_required field = Some true.
Proof.
  intros Hok. apply fromParameter_Ok_inv in Hok as (po & field0 & _ & -> & _).
  apply dropFalsyRequired_set.
Qed.

Lemma fromParameter_path_required p po field :
  resolveParameter p = Ok po ->
  p_in po = "path" ->
  fromParameter p = Ok field ->
  f_required field = Some true.
Proof.
  intros Hp Hin Hok. apply fromParameter_Ok_inv in Hok as (po' & field0 & Hp' & -> & Hreq).
  rewrite Hp in Hp'. injection Hp' as <-. simpl. now rewrite (Hreq Hin).
Qed.

(** A path parameter whose schema is found and resolves compiles. *)
Lemma fromParameter_path_compiles p po s f0 schema :
  resolveParameter p = Ok po ->
  p_in po = "path" ->
  parameterSchemaNode po = Some s ->
  fromSchema (Some s) = Ok f0 ->
  resolveSchema (Some s) = Ok schema ->
  exists field, fromParameter p = Ok field.
Proof.
  intros Hp Hin Hnode Hf0 Hs.
  rewrite (fromParameter_schema_found _ _ _ _ Hp Hnode Hf0).
  rewrite Hs, bind_Ok; cbn beta zeta.
  rewrite (arrayQuerySchema_path _ _ Hin), Hin.
  replace (String.eqb "path" "query") with false by reflexivity.
  replace (String.eqb "path" "path") with true by reflexivity.
  cbn iota. rewrite !bind_Ok. eexists; reflexivity.
Qed.

(** Neither schema nor JSON-compatible content: the look-up fails on a
    property access before the explicit check is reached. *)
Lemma fromParameter_missing_schema p po :
  resolveParameter p = Ok po ->
  p_schema po = None ->
  jsonContent po = None ->
  fromParameter p = Throw TypeError.
Proof.
  intros Hp Hschema Hjson. unfold Shared.fromParameter.
  rewrite Hp, bind_Ok; cbn beta. rewrite Hschema, bind_Ok; cbn beta iota.
  unfold jsonContent in Hjson.
  destruct (p_content po) as [c|]; [|reflexivity].
  rewrite findKey_json. simpl in Hjson. rewrite Hjson. reflexivity.
Qed.
End SharedParameterFacts.





(** C8. In both listings a descriptor returned by [fromParameter] has its
    required flag either absent or [true]; and a parameter located in the
    path, whatever it declares, gets a descriptor whose flag is [true]:
    it is [true] on every descriptor returned, and one is returned when
    the schema of the parameter is found and resolves. *)
Theorem required_flag_only_when_true `{!Collaborators} p po :
  resolveParameter p = Ok po ->
  (forall field, SparseDefaults.fromParameter p = Ok field ->
     f_required field = None \/ f_required field = Some true)
  /\ (forall field, ConcreteDefaults.fromParameter p = Ok field ->
        f_required field = None \/ f_required field = Some true)
  /\ (p_in po = "path" ->
      (forall field, SparseDefaults.fromParameter p = Ok field ->
         f_required field = Some true)
      /\ (forall field, ConcreteDefaults.fromParameter p = Ok field ->
            f_required field = Some true)
      /\ (forall s so,
            parameterSchemaNode po = Some s ->
            resolveSchema (Some s) = Ok (Some so) ->
            exists sparse concrete,
              SparseDefaults.fromParameter p = Ok sparse
              /\ ConcreteDefaults.fromParameter p = Ok concrete
              /\ f_required sparse = Some true
              /\ f_required concrete = Some true)).
Proof.
  intros Hp. split; [|split].
  - intros field. apply fromParameter_required_only_true.
  - intros field. apply fromParameter_required_only_true.
  - intros Hin. split; [|split].
    + intros field. now apply fromParameter_path_required with (po := po).
    + intros field. now apply fromParameter_path_required with (po := po).
    + intros s so Hnode Hs.
      destruct (fromParameter_path_compiles SparseDefaults.fromSchema
                  SparseDefaults.getArrayItemDefault p po s _ _ Hp Hin Hnode
                  (SparseDefaults_fromSchema_resolved _ _ Hs) Hs) as [sparse Hsparse].
      destruct (fromParameter_path_compiles ConcreteDefaults.fromSchema
                  ConcreteDefaults.getArrayItemDefault p po s _ _ Hp Hin Hnode
                  (ConcreteDefaults_fromSchema_resolved _ _ Hs) Hs)
        as [concrete Hconcrete].
      exists sparse, concrete. repeat split; try assumption.
      * exact (fromParameter_path_required _ _ p po sparse Hp Hin Hsparse).
      * exact (fromParameter_path_required _ _ p po concrete Hp Hin Hconcrete).
Qed.

(** A path parameter that declares [required: false]. *)
Lemma required_flag_only_when_true_witness :
  p_required idParameter = Some false
  /\ exists sparse concrete,
       SparseDefaults.fromParameter (H := plainCollaborators) (PInline idParameter)
       = Ok sparse
       /\ ConcreteDefaults.fromParameter (H := plainCollaborators) (PInline idParameter)
          = Ok concrete
       /\ f_required sparse = Some true
       /\ f_required concrete = Some true.
Proof.
  split; [reflexivity|].
  exact (proj2 (proj2 (proj2 (proj2
           (required_flag_only_when_true (H := plainCollaborators)
              (PInline idParameter) idParameter eq_refl)) eq_refl))
           (SInline (schemaOfType "string")) (schemaOfType "string")
           eq_refl eq_refl).
Defined.

(** C9, as the code has it.  A parameter with neither an attached schema
    nor a JSON-compatible content entry makes [fromParameter] fail, in
    both listings, with the engine's [TypeError] of a property access,
    and so not with the explicit error that the method holds for this
    case. *)
Theorem missing_schema_fails_with_TypeError `{!Collaborators} p po :
  resolveParameter p = Ok po ->
  p_schema po = None ->
  jsonContent po = None ->
  SparseDefaults.fromParameter p = Throw TypeError
  /\ ConcreteDefaults.fromParameter p = Throw TypeError
  /\ SparseDefaults.fromParameter p
     <> Throw (Error "Parameter schema nor content not found")
  /\ ConcreteDefaults.fromParameter p
     <> Throw (Error "Parameter schema nor content not found").
Proof.
  intros Hp Hschema Hjson.
  pose proof (fromParameter_missing_schema SparseDefaults.fromSchema
                SparseDefaults.getArrayItemDefault p po Hp Hschema Hjson) as Hsparse.
  pose proof (fromParameter_missing_schema ConcreteDefaults.fromSchema
                ConcreteDefaults.getArrayItemDefault p po Hp Hschema Hjson) as Hconcrete.
  unfold SparseDefaults.fromParameter, ConcreteDefaults.fromParameter.
  rewrite Hsparse, Hconcrete. repeat split; discriminate.
Qed.

(** A parameter with no schema and no content, and one whose content is
    plain text only. *)
Lemma missing_schema_fails_with_TypeError_witness :
  (SparseDefaults.fromParameter (H := plainCollaborators) (PInline bareParameter)
   = Throw TypeError
   /\ ConcreteDefaults.fromParameter (H := plainCollaborators) (PInline bareParameter)
      = Throw TypeError)
  /\ (SparseDefaults.fromParameter (H := plainCollaborators)
        (PInline textOnlyParameter) = Throw TypeError
      /\ ConcreteDefaults.fromParameter (H := plainCollaborators)
           (PInline textOnlyParameter) = Throw TypeError).
Proof.
  pose proof (missing_schema_fails_with_TypeError (H := plainCollaborators)
                (PInline bareParameter) bareParameter eq_refl eq_refl eq_refl)
    as (H1 & H2 & _).
  pose proof (missing_schema_fails_with_TypeError (H := plainCollaborators)
                (PInline textOnlyParameter) textOnlyParameter eq_refl eq_refl eq_refl)
    as (H3 & H4 & _).
  exact (conj (conj H1 H2) (conj H3 H4)).
Defined.

(** ** Object bodies *)

Lemma mapM_Forall2 {A B} (f : A -> Res B) (P : A -> B -> Prop) l :
  Forall (fun a => exists b, f a = Ok b /\ P a b) l ->
  exists bs, mapM f l = Ok bs /\ Forall2 P l bs.
Proof.
  induction 1 as [|a l (b & Hb & HP) _ (bs & Hbs & HPs)]; simpl.
  - exists []. split; [reflexivity | constructor].
  - exists (b :: bs). rewrite Hb, bind_Ok, Hbs, bind_Ok.
    split; [reflexivity | now constructor].
Qed.

Section PropertyLoop.
Context `{!Collaborators}.
Variable fromSchema : option Schema -> Res INodeProperties.

Lemma propertyField_describes schema key property compiled :
  fromSchema (Some property) = Ok compiled ->
  f_required compiled = None ->
  exists field,
    Shared.propertyField fromSchema schema (key, property) = Ok field
    /\ describesProperty fromSchema schema (key, property) field.
Proof.
  intros Hcompiled Hrequired.
  unfold Shared.propertyField, Shared.fromSchemaProperty.
  rewrite Hcompiled, !bind_Ok.
  eexists. split; [reflexivity|].
  exists compiled. split; [exact Hcompiled|].
  simpl. rewrite Hrequired. simpl.
  split; [reflexivity|]. split.
  { destruct (s_required schema) as [l|]; simpl; [|reflexivity].
    now destruct (existsb _ l). }
  split; [reflexivity|]. split; [reflexivity|].
  unfold bodyPropertyRouting. simpl.
  now destruct (f_type compiled) as [[]|].
Qed.

Lemma properties_loop schema props :
  Forall (fun entry : string * Schema =>
            exists compiled,
              fromSchema (Some entry.2) = Ok compiled
              /\ f_required compiled = None) props ->
  exists fields,
    mapM (Shared.propertyField fromSchema schema) props = Ok fields
    /\ Forall2 (describesProperty fromSchema schema) props fields.
Proof.
  intros Hprops. apply mapM_Forall2.
  eapply Forall_impl; [exact Hprops|].
  intros [key property] (compiled & Hcompiled & Hrequired).
  now apply propertyField_describes with (compiled := compiled).
Qed.
End PropertyLoop.


Lemma ConcreteDefaults_fromSchema_no_required `{!Collaborators} schema so :
  resolveSchema schema = Ok (Some so) ->
  exists compiled,
    ConcreteDefaults.fromSchema schema = Ok compiled
    /\ f_required compiled = None.
Proof.
  intros Hres. rewrite (ConcreteDefaults_fromSchema_resolved _ _ Hres).
  eexists. split; [reflexivity|]. now destruct (s_enum so) as [[|e es]|].
Qed.







(** ** The walker *)

Section WalkerFacts.
Variable HttpMethods : list string.
Context {S : Type}.
Variable visitor : OpenAPIVisitor S.

Lemma walkMembers_members pattern parameters todo : forall done st,
  (Walker.walkMembers HttpMethods visitor pattern parameters done todo st).1
  = (done ++ map (walkedMember HttpMethods visitor parameters) todo)%list.
Proof.
  induction todo as [|[method operation] todo IH]; intros done st; simpl.
  - now rewrite app_nil_r.
  - unfold walkedMember at 1. simpl.
    destruct (Walker.includes HttpMethods method); simpl;
      rewrite IH, <- app_assoc; reflexivity.
Qed.

Lemma walkPathTable_paths paths : forall st,
  (Walker.walkPathTable HttpMethods visitor paths st).1
  = map (walkedPathItem HttpMethods visitor) paths.
Proof.
  induction paths as [|[pattern pathItem] paths IH]; intros st; simpl;
    [reflexivity|].
  pose proof (walkMembers_members pattern (pi_parameters pathItem)
                (pi_members pathItem) [] st) as Hmembers.
  destruct (Walker.walkMembers _ _ _ _ _ _ _) as [members st'].
  specialize (IH st').
  destruct (Walker.walkPathTable _ _ _ _) as [rest st''].
  simpl in *. now rewrite Hmembers, IH.
Qed.

(** The document after [walk]: every member under an HTTP method is
    normalized, everything else is as it was. *)
Lemma walk_document doc st :
  (Walker.walk HttpMethods visitor doc st).1
  = mkDocument (map (walkedPathItem HttpMethods visitor) <$> doc_paths doc)
      (doc_tags doc).
Proof.
  unfold Walker.walk, Walker.walkPaths. simpl.
  destruct (doc_paths doc) as [paths|]; simpl; [|reflexivity].
  pose proof (walkPathTable_paths paths (Walker.walkDocument visitor doc st))
    as Hpaths.
  destruct (Walker.walkPathTable _ _ _ _) as [paths' st']. simpl in *.
  now rewrite Hpaths.
Qed.

Lemma mergeParameters_tags pathLevelParameters operation :
  o_tags (Walker.mergeParameters pathLevelParameters operation)
  = o_tags operation.
Proof.
  unfold Walker.mergeParameters.
  now destruct (0 <? length pathLevelParameters)%nat.
Qed.

Lemma normalize_tags pathLevelParameters operation :
  o_tags (Walker.normalize visitor pathLevelParameters operation)
  = match o_tags operation with
    | None | Some [] => Some ["default"]
    | Some (tag :: tags) => Some (tag :: tags)
    end.
Proof.
  unfold Walker.normalize.
  destruct (visitOperation visitor); rewrite ?mergeParameters_tags;
    unfold Walker.defaultTags;
    destruct (o_tags operation) as [[|tag tags]|] eqn:Htags; simpl;
    congruence.
Qed.
End WalkerFacts.

(** C7. An operation that stands under an HTTP method of a path item has,
    after the walk and at the same place of the document, the tag list
    [default] alone when its tag list was absent or empty, and its own
    tag list when it had tags. *)
Theorem walker_defaults_tags {S} (HttpMethods : list string)
    (visitor : OpenAPIVisitor S) doc st paths i j pattern item method operation :
  doc_paths doc = Some paths ->
  paths !! i = Some (pattern, item) ->
  pi_members item !! j = Some (method, operation) ->
  Walker.includes HttpMethods method = true ->
  exists paths' item' operation',
    doc_paths (Walker.walk HttpMethods visitor doc st).1 = Some paths'
    /\ paths' !! i = Some (pattern, item')
    /\ pi_members item' !! j = Some (method, operation')
    /\ o_tags operation'
       = match o_tags operation with
         | None | Some [] => Some ["default"]
         | Some (tag :: tags) => Some (tag :: tags)
         end.
Proof.
  intros Hpaths Hitem Hmember Hmethod.
  rewrite walk_document, Hpaths. simpl.
  eexists _, _, _. split; [reflexivity|]. split.
  { rewrite list_lookup_fmap, Hitem. reflexivity. }
  split.
  { simpl. rewrite list_lookup_fmap, Hmember. reflexivity. }
  unfold walkedMember. simpl. rewrite Hmethod. apply normalize_tags.
Qed.

(** Three operations: no tag list, an empty one, and the tag [pets]. *)
Lemma walker_defaults_tags_witness :
  let walked :=
    (Walker.walk openapiHttpMethods silentListener untaggedDocument tt).1 in
  (exists paths' item' operation',
     doc_paths walked = Some paths'
     /\ paths' !! 0%nat = Some ("/pets", item')
     /\ pi_members item' !! 0%nat = Some ("get", operation')
     /\ o_tags operation' = Some ["default"])
  /\ (exists paths' item' operation',
        doc_paths walked = Some paths'
        /\ paths' !! 0%nat = Some ("/pets", item')
        /\ pi_members item' !! 1%nat = Some ("post", operation')
        /\ o_tags operation' = Some ["default"])
  /\ (exists paths' item' operation',
        doc_paths walked = Some paths'
        /\ paths' !! 0%nat = Some ("/pets", item')
        /\ pi_members item' !! 2%nat = Some ("delete", operation')
        /\ o_tags operation' = Some ["pets"]).
Proof.
  split; [|split].
  - exact (walker_defaults_tags openapiHttpMethods silentListener untaggedDocument
             tt _ 0%nat 0%nat _ _ _ _ eq_refl eq_refl eq_refl eq_refl).
  - exact (walker_defaults_tags openapiHttpMethods silentListener untaggedDocument
             tt _ 0%nat 1%nat _ _ _ _ eq_refl eq_refl eq_refl eq_refl).
  - exact (walker_defaults_tags openapiHttpMethods silentListener untaggedDocument
             tt _ 0%nat 2%nat _ _ _ _ eq_refl eq_refl eq_refl eq_refl).
Defined.

Lemma operationParamNames_has operationParameters name :
  Some name ∈ Walker.operationParamNames operationParameters
  <-> nonEmpty name = true
      /\ existsb (isNamed name) operationParameters = true.
Proof.
  unfold Walker.operationParamNames.
  rewrite elem_of_list_to_set, list_elem_of_In, filter_In, in_map_iff, existsb_exists.
  split.
  - intros [([ref|o] & Hname & Hin) Htruthy]; [discriminate|].
    injection Hname as <-. split; [exact Htruthy|].
    exists (PInline o). split; [exact Hin|]. simpl. apply String.eqb_refl.
  - intros [Htruthy ([ref|o] & Hin & Hname)]; [discriminate|].
    simpl in Hname. apply String.eqb_eq in Hname as <-.
    split; [|exact Htruthy]. now exists (PInline o).
Qed.

Lemma notOverridden_spec operationParameters p :
  Walker.notOverridden (Walker.operationParamNames operationParameters) p
  = negb (overriddenBy operationParameters p).
Proof.
  destruct p as [ref|o]; simpl; [reflexivity|]. f_equal.
  apply eq_true_iff_eq. rewrite bool_decide_eq_true, andb_true_iff.
  apply operationParamNames_has.
Qed.

(** The merge, as the code performs it. *)
Lemma mergeParameters_spec pathLevelParameters operation :
  pathLevelParameters <> [] ->
  o_parameters (Walker.mergeParameters pathLevelParameters operation)
  = Some (List.filter
            (fun p => negb (overriddenBy (default [] (o_parameters operation)) p))
            pathLevelParameters
          ++ default [] (o_parameters operation))%list.
Proof.
  intros Hne. unfold Walker.mergeParameters.
  destruct pathLevelParameters as [|p ps]; [contradiction|].
  cbn [length Nat.ltb Nat.leb]. cbn [setParameters o_parameters].
  do 2 f_equal. apply filter_ext. intros q. apply notOverridden_spec.
Qed.

(** C1, at the name on which the code departs from it.  A path-level and
    an operation-level parameter that share the empty name are both in
    the merged list, the path-level one first; with the shared name [x]
    the merged list is the operation-level parameter alone. *)
Theorem merge_keeps_overridden_empty_name :
  doc_paths (Walker.walk openapiHttpMethods silentListener
               (sharedNameDocument emptyNamed) tt).1
  = Some [("/items",
           mkPathItem (Some [PInline (emptyNamed "path scope")])
             [("get", mkOperation (Some ["items"])
                        (Some [PInline (emptyNamed "path scope");
                               PInline (emptyNamed "operation scope")]) None)])]
  /\ doc_paths (Walker.walk openapiHttpMethods silentListener
                  (sharedNameDocument xNamed) tt).1
     = Some [("/items",
              mkPathItem (Some [PInline (xNamed "path scope")])
                [("get", mkOperation (Some ["items"])
                           (Some [PInline (xNamed "operation scope")]) None)])].
Proof.
  rewrite !walk_document. unfold walkedPathItem, walkedMember. simpl.
  unfold Walker.normalize, Walker.defaultTags. simpl.
  split; do 6 f_equal; (etransitivity; [apply mergeParameters_spec; discriminate|]);
    reflexivity.
Qed.

(** ** What the visitor is handed *)

Section VisitorCalls.
Variable HttpMethods : list string.
Context {S : Type}.
Variable visitor : OpenAPIVisitor S.

Lemma walkMembers_state visit pattern parameters todo : forall done st,
  visitOperation visitor = Some visit ->
  (Walker.walkMembers HttpMethods visitor pattern parameters done todo st).2
  = fold_left (fun st call => visit call.1 call.2 st)
      (memberCalls HttpMethods visitor pattern parameters done todo) st.
Proof.
  induction todo as [|[method operation] todo IH]; intros done st Hvisit; simpl;
    [reflexivity|].
  destruct (Walker.includes HttpMethods method); simpl.
  - rewrite Hvisit. now rewrite IH.
  - now apply IH.
Qed.

Lemma walkPathTable_state visit paths : forall st,
  visitOperation visitor = Some visit ->
  (Walker.walkPathTable HttpMethods visitor paths st).2
  = fold_left (fun st call => visit call.1 call.2 st)
      (pathCalls HttpMethods visitor paths) st.
Proof.
  induction paths as [|[pattern pathItem] paths IH]; intros st Hvisit; simpl;
    [reflexivity|].
  pose proof (walkMembers_state visit pattern (pi_parameters pathItem)
                (pi_members pathItem) [] st Hvisit) as Hmembers.
  destruct (Walker.walkMembers _ _ _ _ _ _ _) as [members st'].
  specialize (IH st' Hvisit).
  destruct (Walker.walkPathTable _ _ _ _) as [rest st''].
  simpl in *. unfold pathCalls in *. simpl.
  now rewrite fold_left_app, <- Hmembers, <- IH.
Qed.

Lemma memberCalls_normalized pattern parameters todo : forall done,
  Forall (fun call : OperationObject * OperationContext =>
            exists operation,
              In (method call.2, operation) todo
              /\ Walker.includes HttpMethods (method call.2) = true
              /\ call.1 = Walker.normalize visitor (default [] parameters) operation)
    (memberCalls HttpMethods visitor pattern parameters done todo).
Proof.
  induction todo as [|[m operation] todo IH]; intros done; simpl; [constructor|].
  destruct (Walker.includes HttpMethods m) eqn:Hm.
  - constructor.
    + exists operation. simpl. auto.
    + eapply Forall_impl; [apply IH|]. intros call (o & Hin & Hrest). exists o. auto.
  - eapply Forall_impl; [apply IH|]. intros call (o & Hin & Hrest). exists o. auto.
Qed.
End VisitorCalls.

(** X1. With an operation handler, the state after [walkPaths] is the
    fold of the handler over [pathCalls], the operations under HTTP
    methods in document order, and every operation handed over has a tag
    list that is not empty. *)
Theorem visitor_is_handed_tagged_operations {S} (HttpMethods : list string)
    (visitor : OpenAPIVisitor S) visit doc st paths :
  visitOperation visitor = Some visit ->
  doc_paths doc = Some paths ->
  (Walker.walkPaths HttpMethods visitor doc None st).2
  = fold_left (fun st call => visit call.1 call.2 st)
      (pathCalls HttpMethods visitor paths) st
  /\ Forall (fun call : OperationObject * OperationContext =>
               exists tag tags, o_tags call.1 = Some (tag :: tags))
       (pathCalls HttpMethods visitor paths).
Proof.
  intros Hvisit Hpaths. split.
  - unfold Walker.walkPaths. simpl. rewrite Hpaths.
    pose proof (walkPathTable_state HttpMethods visitor visit paths st Hvisit) as H.
    now destruct (Walker.walkPathTable _ _ _ _).
  - apply List.Forall_forall. intros call Hcall. unfold pathCalls in Hcall.
    apply in_flat_map in Hcall as ([pattern item] & _ & Hcall).
    pose proof (memberCalls_normalized HttpMethods visitor pattern
                  (pi_parameters item) (pi_members item) []) as Hall.
    rewrite List.Forall_forall in Hall.
    destruct (Hall call Hcall) as (operation & _ & _ & ->).
    rewrite normalize_tags.
    destruct (o_tags operation) as [[|tag tags]|]; eauto.
Qed.

(** The three operations of [untaggedDocument]. *)
Lemma visitor_is_handed_tagged_operations_witness :
  Forall (fun call : OperationObject * OperationContext =>
            exists tag tags, o_tags call.1 = Some (tag :: tags))
    (pathCalls openapiHttpMethods silentListener
       (default [] (doc_paths untaggedDocument))).
Proof.
  exact (proj2 (visitor_is_handed_tagged_operations openapiHttpMethods
                  silentListener _ untaggedDocument tt _ eq_refl eq_refl)).
Defined.

Lemma filter_filter_nil {A} (f g : A -> bool) l :
  (forall a, f a = true -> g a = false) ->
  List.filter f (List.filter g l) = [].
Proof.
  intros Hfg. induction l as [|a l IH]; simpl; [reflexivity|].
  destruct (g a) eqn:Hg; [|exact IH]. simpl.
  destruct (f a) eqn:Hf; [|exact IH]. apply Hfg in Hf. congruence.
Qed.

(** X2. The merge as the code performs it: when the path item has
    parameters, the operation's list becomes the path-level parameters
    that are references, or have the empty name, or have a name that no
    concrete operation-level parameter has, followed by all
    operation-level parameters; for a name that is not empty and that a
    concrete operation-level parameter has, the merged list holds the
    operation-level parameters of that name and no other. *)
Theorem merge_path_then_operation pathLevelParameters operation :
  pathLevelParameters <> [] ->
  let operationParameters := default [] (o_parameters operation) in
  let kept :=
    List.filter (fun p => negb (overriddenBy operationParameters p))
      pathLevelParameters in
  o_parameters (Walker.mergeParameters pathLevelParameters operation)
  = Some (kept ++ operationParameters)%list
  /\ forall name,
       nonEmpty name = true ->
       existsb (isNamed name) operationParameters = true ->
       List.filter (isNamed name) (kept ++ operationParameters)%list
       = List.filter (isNamed name) operationParameters.
Proof.
  intros Hne operationParameters kept. split.
  - now apply mergeParameters_spec.
  - intros name Hname Hexists. rewrite List.filter_app.
    unfold kept. rewrite filter_filter_nil; [reflexivity|].
    intros [ref|o] Hnamed; [discriminate|].
    simpl in Hnamed. apply String.eqb_eq in Hnamed.
    simpl. now rewrite Hnamed, Hname, Hexists.
Qed.

(** The shared name [x]: the operation-level parameter alone. *)
Lemma merge_path_then_operation_witness :
  o_parameters
    (Walker.mergeParameters [PInline (xNamed "path scope")]
       (mkOperation None (Some [PInline (xNamed "operation scope")]) None))
  = Some [PInline (xNamed "operation scope")].
Proof.
  exact (proj1 (merge_path_then_operation [PInline (xNamed "path scope")]
                  (mkOperation None (Some [PInline (xNamed "operation scope")]) None)
                  ltac:(discriminate))).
Defined.

(** X3. A body without content map: [Object.keys] of [undefined] in
    [findKey] raises before any of the later guards for a missing map is
    reached. *)
Theorem absent_content_map_fails_with_TypeError `{!Collaborators} body b :
  resolveRequestBody body = Ok b ->
  b_content b = None ->
  SparseDefaults.fromRequestBody (Some body) = Throw TypeError
  /\ ConcreteDefaults.fromRequestBody (Some body) = Throw TypeError.
Proof.
  intros Hbody Hcontent.
  unfold SparseDefaults.fromRequestBody, ConcreteDefaults.fromRequestBody.
  rewrite Hbody, !bind_Ok; cbn beta. rewrite Hcontent. split; reflexivity.
Qed.

(** [bodyWithoutContent] in both listings. *)
Lemma absent_content_map_fails_with_TypeError_witness :
  SparseDefaults.fromRequestBody (H := plainCollaborators)
    (Some (BInline bodyWithoutContent)) = Throw TypeError
  /\ ConcreteDefaults.fromRequestBody (H := plainCollaborators)
       (Some (BInline bodyWithoutContent)) = Throw TypeError.
Proof.
  exact (absent_content_map_fails_with_TypeError (H := plainCollaborators)
           (BInline bodyWithoutContent) bodyWithoutContent eq_refl eq_refl).
Defined.

(** * Further properties of the code *)

(** ** The traversal *)

Section TraversalFacts.
Variable HttpMethods : list string.
Context {S : Type}.
Variable visitor : OpenAPIVisitor S.

Lemma walkMembers_handler pat parameters todo : forall done st,
  (Walker.walkMembers HttpMethods visitor pat parameters done todo st).2
  = fold_left (fun st call => operationHandler visitor call.1 call.2 st)
      (memberCalls HttpMethods visitor pat parameters done todo) st.
Proof.
  induction todo as [|[method operation] todo IH]; intros done st; simpl;
    [reflexivity|].
  destruct (Walker.includes HttpMethods method); simpl; [|apply IH].
  rewrite IH. unfold operationHandler.
  now destruct (visitOperation visitor).
Qed.

Lemma walkPathTable_handler paths : forall st,
  (Walker.walkPathTable HttpMethods visitor paths st).2
  = fold_left (fun st call => operationHandler visitor call.1 call.2 st)
      (pathCalls HttpMethods visitor paths) st.
Proof.
  induction paths as [|[pat pathItem] paths IH]; intros st; simpl;
    [reflexivity|].
  pose proof (walkMembers_handler pat (pi_parameters pathItem)
                (pi_members pathItem) [] st) as Hmembers.
  destruct (Walker.walkMembers _ _ _ _ _ _ _) as [members st'].
  specialize (IH st').
  destruct (Walker.walkPathTable _ _ _ _) as [rest st''].
  simpl in *. unfold pathCalls in *. simpl.
  now rewrite fold_left_app, <- Hmembers, <- IH.
Qed.

Lemma memberCalls_triples pat parameters todo : forall done,
  map (fun call : OperationObject * OperationContext =>
         (pattern call.2, method call.2, call.1))
    (memberCalls HttpMethods visitor pat parameters done todo)
  = map (fun member : string * OperationObject =>
           (pat, member.1,
            Walker.normalize visitor (default [] parameters) member.2))
      (List.filter (fun member : string * OperationObject =>
                      Walker.includes HttpMethods member.1) todo).
Proof.
  induction todo as [|[m operation] todo IH]; intros done; simpl; [reflexivity|].
  destruct (Walker.includes HttpMethods m); simpl; now rewrite IH.
Qed.

Lemma memberCalls_context pat parameters todo : forall done,
  Forall (fun call : OperationObject * OperationContext =>
            (pattern call.2 = pat /\ pi_parameters (path call.2) = parameters)
            /\ map fst (pi_members (path call.2)) = map fst (done ++ todo)%list
            /\ In (method call.2, call.1) (pi_members (path call.2)))
    (memberCalls HttpMethods visitor pat parameters done todo).
Proof.
  induction todo as [|[m operation] todo IH]; intros done; simpl; [constructor|].
  destruct (Walker.includes HttpMethods m).
  - constructor.
    + simpl. split; [split; reflexivity|]. split; [now rewrite !map_app|].
      apply in_or_app. right. now left.
    + specialize (IH (done ++ [(m, Walker.normalize visitor (default [] parameters)
                                      operation)])%list).
      eapply Forall_impl; [exact IH|]. intros call (Hp & Hkeys & Hin).
      split; [exact Hp|]. split; [|exact Hin].
      rewrite Hkeys, !map_app, <- app_assoc. reflexivity.
  - specialize (IH (done ++ [(m, operation)])%list).
    eapply Forall_impl; [exact IH|]. intros call (Hp & Hkeys & Hin).
    split; [exact Hp|]. split; [|exact Hin].
    rewrite Hkeys, !map_app, <- app_assoc. reflexivity.
Qed.
End TraversalFacts.

Lemma fold_left_nothing {A B} (l : list B) (a : A) :
  fold_left (fun a _ => a) l a = a.
Proof. induction l; simpl; auto. Qed.

(** X4. The callbacks of [walk] come in this order: the document
    handler, then the operation handler on every call of [pathCalls] (the
    paths in document order, and in each path the members under HTTP
    methods in their order), then the tag handler on every tag in order,
    then the finish hook; a handler the visitor lacks is skipped, and so
    is a missing path table or tag list. *)
Theorem walk_visits_in_order {S} (HttpMethods : list string)
    (visitor : OpenAPIVisitor S) doc st :
  (Walker.walk HttpMethods visitor doc st).2
  = finishHandler visitor
      (fold_left (fun st tag => tagHandler visitor tag st)
         (default [] (doc_tags doc))
         (fold_left (fun st call => operationHandler visitor call.1 call.2 st)
            (pathCalls HttpMethods visitor (default [] (doc_paths doc)))
            (documentHandler visitor doc st))).
Proof.
  unfold Walker.walk, Walker.walkPaths, Walker.walkTags, Walker.walkDocument.
  unfold finishHandler, tagHandler, documentHandler. simpl.
  destruct (doc_paths doc) as [paths|]; simpl.
  - pose proof (walkPathTable_handler HttpMethods visitor paths
                  (default (fun _ st => st) (visitDocument visitor) doc st)) as Hstate.
    destruct (visitDocument visitor); simpl in *;
      destruct (Walker.walkPathTable _ _ _ _) as [paths' st']; simpl in *;
      rewrite <- Hstate;
      destruct (doc_tags doc) as [tags|]; simpl;
      destruct (visitTag visitor); simpl; rewrite ?fold_left_nothing;
      destruct (finish visitor); reflexivity.
  - destruct (visitDocument visitor); simpl;
      destruct (doc_tags doc) as [tags|]; simpl;
      destruct (visitTag visitor); simpl; rewrite ?fold_left_nothing;
      destruct (finish visitor); reflexivity.
Qed.

Lemma walkPaths_handler {S} (HttpMethods : list string)
    (visitor : OpenAPIVisitor S) doc st :
  (Walker.walkPaths HttpMethods visitor doc None st).2
  = fold_left (fun st call => operationHandler visitor call.1 call.2 st)
      (pathCalls HttpMethods visitor (default [] (doc_paths doc))) st.
Proof.
  unfold Walker.walkPaths. simpl.
  destruct (doc_paths doc) as [paths|]; simpl; [|reflexivity].
  pose proof (walkPathTable_handler HttpMethods visitor paths st) as Hstate.
  now destruct (Walker.walkPathTable _ _ _ _) as [paths' st'].
Qed.

(** X5. [walkPaths] calls the operation handler once for every member of
    a path item that stands under an HTTP method, and for no other
    member, in document order: the visitor's state after [walkPaths] is
    the handler folded over a list of calls that carry, one by one, the
    pattern of the path, the method of the member and the member's
    operation as the walker normalized it. *)
Theorem one_call_per_http_member {S} (HttpMethods : list string)
    (visitor : OpenAPIVisitor S) (doc : Document) (st : S) :
  exists calls : list (OperationObject * OperationContext),
    (Walker.walkPaths HttpMethods visitor doc None st).2
    = fold_left (fun st call => operationHandler visitor call.1 call.2 st) calls st
    /\ map (fun call : OperationObject * OperationContext =>
              (pattern call.2, method call.2, call.1)) calls
       = flat_map
           (fun entry : string * PathItemObject =>
              map (fun member : string * OperationObject =>
                     (entry.1, member.1,
                      Walker.normalize visitor (default [] (pi_parameters entry.2))
                        member.2))
                (List.filter (fun member : string * OperationObject =>
                                Walker.includes HttpMethods member.1)
                   (pi_members entry.2)))
           (default [] (doc_paths doc)).
Proof.
  exists (pathCalls HttpMethods visitor (default [] (doc_paths doc))).
  split; [apply walkPaths_handler|].
  unfold pathCalls.
  induction (default [] (doc_paths doc)) as [|[pat item] paths IH]; simpl;
    [reflexivity|].
  now rewrite map_app, IH, memberCalls_triples.
Qed.

(** X6. The context that [walkPaths] hands to the operation handler
    holds the path item being walked: the visitor's state after
    [walkPaths] is the handler folded over a list of calls, and in each
    of them the pattern of the context is a pattern of the path table,
    the path item of the context has the path-level parameters and the
    member keys of that entry, and it holds the operation handed over
    under the method of the context. *)
Theorem context_holds_the_path_item {S} (HttpMethods : list string)
    (visitor : OpenAPIVisitor S) (doc : Document) (st : S) :
  exists calls : list (OperationObject * OperationContext),
    (Walker.walkPaths HttpMethods visitor doc None st).2
    = fold_left (fun st call => operationHandler visitor call.1 call.2 st) calls st
    /\ length calls
       = length (flat_map
                   (fun entry : string * PathItemObject =>
                      List.filter (fun member : string * OperationObject =>
                                     Walker.includes HttpMethods member.1)
                        (pi_members entry.2))
                   (default [] (doc_paths doc)))
    /\ Forall (fun call : OperationObject * OperationContext =>
                 exists item,
                   In (pattern call.2, item) (default [] (doc_paths doc))
                   /\ pi_parameters (path call.2) = pi_parameters item
                   /\ map fst (pi_members (path call.2)) = map fst (pi_members item)
                   /\ In (method call.2, call.1) (pi_members (path call.2)))
         calls.
Proof.
  exists (pathCalls HttpMethods visitor (default [] (doc_paths doc))).
  split; [apply walkPaths_handler|]. split.
  - unfold pathCalls.
    induction (default [] (doc_paths doc)) as [|[pat item] paths IH]; simpl;
      [reflexivity|].
    rewrite !length_app, IH. f_equal.
    rewrite <- (length_map (fun call : OperationObject * OperationContext =>
                              (pattern call.2, method call.2, call.1))),
      memberCalls_triples.
    now rewrite length_map.
  - apply List.Forall_forall. intros call Hcall. unfold pathCalls in Hcall.
    apply in_flat_map in Hcall as ([pat item] & Hentry & Hcall).
    pose proof (memberCalls_context HttpMethods visitor pat (pi_parameters item)
                  (pi_members item) []) as Hall.
    rewrite List.Forall_forall in Hall.
    destruct (Hall call Hcall) as ((Hpat & Hparameters) & Hkeys & Hin).
    exists item. rewrite Hpat. auto.
Qed.

Lemma Forall2_map_self {A B} (P : A -> B -> Prop) (f : A -> B) l :
  (forall a, P a (f a)) -> Forall2 P l (map f l).
Proof. intros HP. induction l; simpl; constructor; auto. Qed.

Lemma mergeParameters_requestBody pathLevelParameters operation :
  o_requestBody (Walker.mergeParameters pathLevelParameters operation)
  = o_requestBody operation.
Proof.
  unfold Walker.mergeParameters.
  now destruct (0 <? length pathLevelParameters)%nat.
Qed.

Lemma normalize_requestBody {S} (visitor : OpenAPIVisitor S) pathLevelParameters
    operation :
  o_requestBody (Walker.normalize visitor pathLevelParameters operation)
  = o_requestBody operation.
Proof.
  unfold Walker.normalize.
  destruct (visitOperation visitor); rewrite ?mergeParameters_requestBody;
    unfold Walker.defaultTags; now destruct (o_tags operation) as [[|tag tags]|].
Qed.

Lemma defaultTags_parameters operation :
  o_parameters (Walker.defaultTags operation) = o_parameters operation.
Proof. unfold Walker.defaultTags. now destruct (o_tags operation) as [[|tag tags]|]. Qed.

Lemma normalize_parameters_kept {S} (visitor : OpenAPIVisitor S) pathLevelParameters
    operation :
  visitOperation visitor = None \/ pathLevelParameters = [] ->
  o_parameters (Walker.normalize visitor pathLevelParameters operation)
  = o_parameters operation.
Proof.
  unfold Walker.normalize. intros [Hnone | ->].
  - rewrite Hnone. apply defaultTags_parameters.
  - destruct (visitOperation visitor); apply defaultTags_parameters.
Qed.

(** X7. The walk rewrites nothing but the tag list and the parameter list
    of operations under HTTP methods.  The tag list of the document, the
    patterns, the path-level parameters, the keys and the order of the
    members and every request body are as before; a member under another
    key is untouched; and the parameter list of an operation is left as
    it was when the visitor has no operation handler or the path item has
    no parameters. *)
Theorem walk_rewrites_tags_and_parameters_only {S} (HttpMethods : list string)
    (visitor : OpenAPIVisitor S) doc st :
  let walked := (Walker.walk HttpMethods visitor doc st).1 in
  doc_tags walked = doc_tags doc
  /\ match doc_paths doc, doc_paths walked with
     | None, None => True
     | Some paths, Some paths' =>
         Forall2
           (fun entry entry' : string * PathItemObject =>
              entry'.1 = entry.1
              /\ pi_parameters entry'.2 = pi_parameters entry.2
              /\ Forall2
                   (fun member member' : string * OperationObject =>
                      member'.1 = member.1
                      /\ o_requestBody member'.2 = o_requestBody member.2
                      /\ (Walker.includes HttpMethods member.1 = false ->
                          member' = member)
                      /\ (visitOperation visitor = None
                          \/ default [] (pi_parameters entry.2) = [] ->
                          o_parameters member'.2 = o_parameters member.2))
                   (pi_members entry.2) (pi_members entry'.2))
           paths paths'
     | _, _ => False
     end.
Proof.
  intros walked. unfold walked. rewrite walk_document. simpl.
  split; [reflexivity|].
  destruct (doc_paths doc) as [paths|]; simpl; [|exact I].
  apply Forall2_map_self. intros [pat item]. simpl.
  split; [reflexivity|]. split; [reflexivity|].
  apply Forall2_map_self. intros [key operation]. unfold walkedMember. simpl.
  split; [reflexivity|].
  destruct (Walker.includes HttpMethods key).
  - split; [apply normalize_requestBody|]. split; [discriminate|].
    apply normalize_parameters_kept.
  - repeat split; reflexivity.
Qed.

Lemma remerge_filter pathLevelParameters operationParameters :
  List.filter
    (fun p =>
       negb (overriddenBy
               (List.filter (fun q => negb (overriddenBy operationParameters q))
                  pathLevelParameters ++ operationParameters)%list p))
    pathLevelParameters
  = List.filter survivesRemerge pathLevelParameters.
Proof.
  apply filter_ext_in. intros [ref|o] Hin; simpl; [reflexivity|].
  destruct (nonEmpty (p_name o)) eqn:Hname; simpl; [|reflexivity].
  rewrite existsb_app.
  destruct (existsb (isNamed (p_name o)) operationParameters) eqn:Hops;
    [now rewrite orb_true_r|].
  rewrite orb_false_r. apply negb_false_iff, existsb_exists.
  exists (PInline o). split; [|simpl; apply String.eqb_refl].
  apply filter_In. split; [exact Hin|]. simpl. now rewrite Hname, Hops.
Qed.

Lemma mergeParameters_twice pathLevelParameters operation :
  pathLevelParameters <> [] ->
  o_parameters
    (Walker.mergeParameters pathLevelParameters
       (Walker.mergeParameters pathLevelParameters operation))
  = Some (List.filter survivesRemerge pathLevelParameters
          ++ default []
               (o_parameters
                  (Walker.mergeParameters pathLevelParameters operation)))%list.
Proof.
  intros Hne. rewrite !(mergeParameters_spec _ _ Hne). simpl.
  now rewrite remerge_filter.
Qed.

Lemma mergeParameters_same pathLevelParameters operation :
  List.filter survivesRemerge pathLevelParameters = [] ->
  Walker.mergeParameters pathLevelParameters
    (Walker.mergeParameters pathLevelParameters operation)
  = Walker.mergeParameters pathLevelParameters operation.
Proof.
  intros Hnil. destruct pathLevelParameters as [|p ps] eqn:Hpl; [reflexivity|].
  rewrite <- Hpl in *.
  assert (Hne : pathLevelParameters <> []) by (rewrite Hpl; discriminate).
  pose proof (mergeParameters_twice _ operation Hne) as Htwice.
  rewrite Hnil in Htwice. simpl in Htwice.
  pose proof (mergeParameters_spec _ operation Hne) as Honce.
  rewrite Honce in Htwice. simpl in Htwice. rewrite <- Honce in Htwice.
  unfold Walker.mergeParameters in *. rewrite Hpl in *.
  cbn [length Nat.ltb Nat.leb] in *. unfold setParameters in *. simpl in *.
  now rewrite Htwice.
Qed.

(** X8. Merging the same path-level parameters into an operation a
    second time puts in front of the merged list, once more, every
    path-level parameter that is a reference or has the empty name, and
    nothing else; so the second merge changes nothing exactly when there
    is no such path-level parameter. *)
Theorem merging_again pathLevelParameters operation :
  pathLevelParameters <> [] ->
  let once := Walker.mergeParameters pathLevelParameters operation in
  let twice := Walker.mergeParameters pathLevelParameters once in
  o_parameters twice
  = Some (List.filter survivesRemerge pathLevelParameters
          ++ default [] (o_parameters once))%list
  /\ (twice = once <-> List.filter survivesRemerge pathLevelParameters = []).
Proof.
  intros Hne once twice.
  pose proof (mergeParameters_twice _ operation Hne) as Htwice.
  split; [exact Htwice|]. split; [|apply mergeParameters_same].
  intros Heq. fold once twice in Htwice. rewrite Heq in Htwice.
  pose proof (mergeParameters_spec _ operation Hne) as Honce. fold once in Honce.
  rewrite Honce in Htwice. cbv [from_option id] in Htwice.
  injection Htwice as Htwice.
  apply (f_equal (@length _)) in Htwice. rewrite !length_app in Htwice.
  destruct (List.filter survivesRemerge pathLevelParameters); [reflexivity|].
  simpl in Htwice. lia.
Qed.

(** A reference and the parameter [x] at path level: after two merges the
    reference stands twice. *)
Lemma merging_again_witness :
  o_parameters
    (Walker.mergeParameters
       [PRef "#/components/parameters/limit"; PInline (xNamed "path scope")]
       (Walker.mergeParameters
          [PRef "#/components/parameters/limit"; PInline (xNamed "path scope")]
          (mkOperation (Some ["items"]) None None)))
  = Some [PRef "#/components/parameters/limit";
          PRef "#/components/parameters/limit"; PInline (xNamed "path scope")].
Proof.
  exact (proj1 (merging_again
                  [PRef "#/components/parameters/limit"; PInline (xNamed "path scope")]
                  (mkOperation (Some ["items"]) None None) ltac:(discriminate))).
Defined.

Lemma defaultTags_tagged operation tag tags :
  o_tags operation = Some (tag :: tags) ->
  Walker.defaultTags operation = operation.
Proof. intros Htags. unfold Walker.defaultTags. now rewrite Htags. Qed.

Lemma normalize_again {S1 S2} (first : OpenAPIVisitor S1) (second : OpenAPIVisitor S2)
    visit pathLevelParameters operation :
  visitOperation first = Some visit ->
  List.filter survivesRemerge pathLevelParameters = [] ->
  Walker.normalize second pathLevelParameters
    (Walker.normalize first pathLevelParameters operation)
  = Walker.normalize first pathLevelParameters operation.
Proof.
  intros Hfirst Hnil.
  pose proof (normalize_tags first pathLevelParameters operation) as Htags.
  assert (Htagged : exists tag tags,
             o_tags (Walker.normalize first pathLevelParameters operation)
             = Some (tag :: tags)).
  { rewrite Htags. destruct (o_tags operation) as [[|tag tags]|]; eauto. }
  destruct Htagged as (tag & tags & Htagged).
  unfold Walker.normalize at 1. rewrite (defaultTags_tagged _ _ _ Htagged).
  destruct (visitOperation second); [|reflexivity].
  unfold Walker.normalize. rewrite Hfirst. now apply mergeParameters_same.
Qed.

(** X9. Walking a document that has been walked with an operation handler
    changes it no further, whatever the second visitor is, provided no
    path item has a path-level parameter that is a reference or has the
    empty name (those a second walk would merge in again, see X8). *)
Theorem second_walk_changes_nothing {S1 S2} (HttpMethods : list string)
    (first : OpenAPIVisitor S1) (second : OpenAPIVisitor S2) visit doc st1 st2 :
  visitOperation first = Some visit ->
  Forall (fun entry : string * PathItemObject =>
            List.filter survivesRemerge (default [] (pi_parameters entry.2)) = [])
    (default [] (doc_paths doc)) ->
  (Walker.walk HttpMethods second
     (Walker.walk HttpMethods first doc st1).1 st2).1
  = (Walker.walk HttpMethods first doc st1).1.
Proof.
  intros Hfirst Hparameters. rewrite !walk_document. simpl.
  destruct (doc_paths doc) as [paths|]; simpl in *; [|reflexivity].
  do 2 f_equal. rewrite map_map. apply map_ext_in.
  intros [pat item] Hin. rewrite List.Forall_forall in Hparameters.
  specialize (Hparameters _ Hin). simpl in Hparameters.
  unfold walkedPathItem. simpl. do 2 f_equal. rewrite map_map.
  apply map_ext. intros [key operation]. unfold walkedMember. simpl.
  destruct (Walker.includes HttpMethods key); [|reflexivity].
  f_equal. now apply normalize_again with (visit := visit).
Qed.

(** The document with the parameter [x] at both levels, walked by the
    recorder after the silent listener. *)
Lemma second_walk_changes_nothing_witness :
  (Walker.walk openapiHttpMethods recorder
     (Walker.walk openapiHttpMethods silentListener
        (sharedNameDocument xNamed) tt).1 []).1
  = (Walker.walk openapiHttpMethods silentListener (sharedNameDocument xNamed) tt).1.
Proof.
  apply (second_walk_changes_nothing openapiHttpMethods silentListener recorder
           (fun _ _ st => st)); [reflexivity|].
  repeat constructor.
Defined.

(** ** The helpers of the compiler *)

(** X10. [findKey] on an object gives the value of the first key, in key
    order, that the regular expression matches, and [undefined] when no
    key matches; a match on the empty key counts as no match, whatever
    the later keys are; and on [undefined] it raises a [TypeError]. *)
Theorem findKey_first_match {A} (regexp : string -> bool) :
  (forall obj : list (string * A),
     findKey (Some obj) regexp
     = Ok match List.find (fun entry => regexp entry.1) obj with
          | Some (key, v) => if nonEmpty key then Some v else None
          | None => None
          end)
  /\ findKey (A := A) None regexp = Throw TypeError.
Proof.
  split; [|reflexivity]. intros obj. unfold findKey. simpl. rewrite find_keys.
  destruct (List.find _ obj) as [[k v]|] eqn:Hfind; simpl; [|reflexivity].
  now rewrite (getKey_find _ _ _ _ Hfind).
Qed.

Lemma append_String c s t : String c s +:+ t = String c (s +:+ t).
Proof. reflexivity. Qed.

Lemma append_Empty t : EmptyString +:+ t = t.
Proof. reflexivity. Qed.

Lemma prefix_app needle : forall key,
  String.prefix needle key = true <-> exists post, key = needle +:+ post.
Proof.
  induction needle as [|c needle IH]; intros key.
  - split; [intros _; now exists key | intros _; now destruct key].
  - destruct key as [|c' key]; simpl.
    + split; [discriminate | intros [post Hpost]; discriminate].
    + destruct (ascii_dec c c') as [->|Hne].
      * rewrite IH. split; intros [post Hpost]; exists post;
          rewrite append_String in *; congruence.
      * split; [discriminate|]. intros [post Hpost].
        rewrite append_String in Hpost. congruence.
Qed.

Lemma containsFrom_app needle : forall key,
  containsFrom needle key = true
  <-> exists pre post, key = pre +:+ needle +:+ post.
Proof.
  induction key as [|c key IH].
  - cbn [containsFrom]. rewrite orb_false_r, prefix_app. split.
    + intros [post Hpost]. now exists EmptyString, post.
    + intros ([|c pre] & post & Hpre); [now exists post | discriminate].
  - cbn [containsFrom]. rewrite orb_true_iff, prefix_app, IH. split.
    + intros [[post Hpost] | (pre & post & Hkey)].
      * now exists EmptyString, post.
      * exists (String c pre), post. now rewrite append_String, Hkey.
    + intros ([|c' pre] & post & Hkey).
      * left. now exists post.
      * right. rewrite append_String in Hkey. injection Hkey as _ Hkey.
        now exists pre, post.
Qed.

(** X11. The media types that count as JSON are those that contain
    [application/json] anywhere: the regular expression is not anchored,
    so a prefix before it and any suffix after it are accepted, and a
    structured-syntax suffix alone is not. *)
Theorem json_media_types key :
  jsonRegexp key = true
  <-> exists pre post, key = pre +:+ "application/json" +:+ post.
Proof. apply containsFrom_app. Qed.

Lemma fold_left_defaults_key {A} (key : INodeProperties -> option A) :
  (forall object source,
     key (defaults object source) = orElse (key object) (key source)) ->
  forall sources object,
    key (fold_left defaults sources object)
    = orElse (key object) (firstDefined key sources).
Proof.
  intros Hkey. induction sources as [|source sources IH]; intros object; simpl.
  - now destruct (key object).
  - rewrite IH, Hkey. now destruct (key object), (key source).
Qed.

(** X12. [combine] is [lodash.defaults] into a fresh object: every key of
    the result comes from the first source that defines it, and the
    result has the key exactly when some source defines it; only the
    required flag is dropped unless the value found for it is [true]. *)
Theorem combine_first_source_wins sources :
  let field := combine sources in
  f_displayName field = firstDefined f_displayName sources
  /\ f_name field = firstDefined f_name sources
  /\ f_description field = firstDefined f_description sources
  /\ f_default field = firstDefined f_default sources
  /\ f_type field = firstDefined f_type sources
  /\ f_options field = firstDefined f_options sources
  /\ f_typeOptions field = firstDefined f_typeOptions sources
  /\ f_routing field = firstDefined f_routing sources
  /\ f_required field
     = match firstDefined f_required sources with
       | Some true => Some true
       | _ => None
       end.
Proof.
  unfold combine. simpl.
  repeat split;
    try (rewrite fold_left_defaults_key by reflexivity; reflexivity).
  rewrite fold_left_defaults_key by reflexivity. simpl.
  now destruct (firstDefined f_required sources) as [[|]|].
Qed.

(** ** Schemas, again *)

(** X13. The two listings give every schema that resolves the same
    presentation type, description and options; and they give the same
    field altogether when the schema has an example, unless an
    enumeration is declared and the default that the example leaves is
    falsy.  So the listings part ways on the default alone, and only
    where no example decides it. *)
Theorem listings_agree_given_an_example `{!Collaborators} schema so :
  resolveSchema schema = Ok (Some so) ->
  exists sparse concrete,
    SparseDefaults.fromSchema schema = Ok sparse
    /\ ConcreteDefaults.fromSchema schema = Ok concrete
    /\ f_type sparse = f_type concrete
    /\ f_description sparse = f_description concrete
    /\ f_options sparse = f_options concrete
    /\ (is_Some (extractExample so) ->
        isChoice so = false \/ truthyOpt (f_default sparse) = true ->
        sparse = concrete).
Proof.
  intros Hres.
  rewrite (SparseDefaults_fromSchema_resolved _ _ Hres),
    (ConcreteDefaults_fromSchema_resolved _ _ Hres).
  do 2 eexists. split; [reflexivity|]. split; [reflexivity|].
  unfold SparseDefaults.typeAndDefault, ConcreteDefaults.typeAndDefault, isChoice.
  destruct (extractExample so) as [d|];
    destruct (s_enum so) as [[|e es]|];
    destruct (isStr (s_type so) "boolean"),
      (isStr (s_type so) "string" || negb (defined (s_type so))),
      (isStr (s_type so) "object"), (isStr (s_type so) "array"),
      (isStr (s_type so) "number" || isStr (s_type so) "integer");
    simpl; repeat split; try reflexivity;
    try (intros [x Hx]; discriminate);
    intros _ [Hchoice|Htruthy]; try discriminate; try reflexivity;
    now rewrite Htruthy.
Qed.

(** An object schema with an example: the default is the JSON text of the
    example in both listings. *)
Lemma listings_agree_given_an_example_witness :
  exists field,
    SparseDefaults.fromSchema (H := plainCollaborators)
      (Some (SInline exampleObjectSchema)) = Ok field
    /\ ConcreteDefaults.fromSchema (H := plainCollaborators)
         (Some (SInline exampleObjectSchema)) = Ok field
    /\ f_type field = Some NJson
    /\ f_default field
       = Some (VStr (stringifyAt EmptyString (VObj [("a", VNum 1)]))).
Proof.
  destruct (listings_agree_given_an_example (H := plainCollaborators)
              (Some (SInline exampleObjectSchema)) exampleObjectSchema eq_refl)
    as (sparse & concrete & Hsparse & Hconcrete & _ & _ & _ & Hsame).
  assert (Heq : sparse = concrete).
  { apply Hsame; [eexists; reflexivity | now left]. }
  subst concrete. exists sparse. split; [exact Hsparse|]. split; [exact Hconcrete|].
  simpl in Hsparse. injection Hsparse as <-. split; reflexivity.
Defined.

(** X14. The default policies.  The first listing leaves the default out
    exactly when there is no example, the kind is not boolean and no
    enumeration is declared; the second listing leaves it out exactly
    when there is no example, the kind is none that the type switch
    names and no enumeration is declared. *)
Theorem default_policies `{!Collaborators} schema so :
  resolveSchema schema = Ok (Some so) ->
  exists sparse concrete,
    SparseDefaults.fromSchema schema = Ok sparse
    /\ ConcreteDefaults.fromSchema schema = Ok concrete
    /\ (f_default sparse = None
        <-> extractExample so = None
            /\ isStr (s_type so) "boolean" = false
            /\ isChoice so = false)
    /\ (f_default concrete = None
        <-> extractExample so = None
            /\ knownKind (s_type so) = false
            /\ isChoice so = false).
Proof.
  intros Hres.
  rewrite (SparseDefaults_fromSchema_resolved _ _ Hres),
    (ConcreteDefaults_fromSchema_resolved _ _ Hres).
  do 2 eexists. split; [reflexivity|]. split; [reflexivity|].
  unfold SparseDefaults.typeAndDefault, ConcreteDefaults.typeAndDefault, isChoice,
    knownKind.
  destruct (extractExample so) as [d|];
    destruct (s_enum so) as [[|e es]|];
    destruct (isStr (s_type so) "boolean"), (isStr (s_type so) "string"),
      (defined (s_type so)), (isStr (s_type so) "object"),
      (isStr (s_type so) "array"), (isStr (s_type so) "number"),
      (isStr (s_type so) "integer");
    simpl; split; split; try discriminate; try (intros (? & ? & ?); discriminate);
    try (repeat split; reflexivity);
    try (destruct (truthy _); discriminate);
    try (destruct (nonEmpty _); discriminate).
Qed.

(** A string schema without example: no default in the first listing,
    the empty string in the second. *)
Lemma default_policies_witness :
  exists sparse concrete,
    SparseDefaults.fromSchema (H := plainCollaborators)
      (Some (SInline (schemaOfType "string"))) = Ok sparse
    /\ ConcreteDefaults.fromSchema (H := plainCollaborators)
         (Some (SInline (schemaOfType "string"))) = Ok concrete
    /\ f_default sparse = None
    /\ f_default concrete <> None.
Proof.
  destruct (default_policies (H := plainCollaborators)
              (Some (SInline (schemaOfType "string"))) (schemaOfType "string")
              eq_refl)
    as (sparse & concrete & Hsparse & Hconcrete & Hs & Hc).
  exists sparse, concrete. split; [exact Hsparse|]. split; [exact Hconcrete|].
  split.
  - apply Hs. repeat split; reflexivity.
  - intros Hnone. apply Hc in Hnone as (_ & Hknown & _). discriminate.
Defined.

(** ** Parameters, again *)

Lemma mapM_Ok_iff {A B} (f : A -> Res B) l : forall bs,
  mapM f l = Ok bs <-> Forall2 (fun a b => f a = Ok b) l bs.
Proof.
  induction l as [|a l IH]; intros bs; simpl.
  - split; [intros [= <-]; constructor | now inversion 1].
  - split.
    + intros Hok. apply bind_Ok_inv in Hok as (b & Hb & Hok).
      apply bind_Ok_inv in Hok as (bs' & Hbs & Hok). injection Hok as <-.
      constructor; [exact Hb | now apply IH].
    + inversion 1 as [|? b ? bs' Hb Hbs]; subst.
      apply IH in Hbs. now rewrite Hb, bind_Ok, Hbs.
Qed.

Lemma mapM_first_failure {A B} (f : A -> Res B) pre a post e :
  Forall (fun x => exists b, f x = Ok b) pre ->
  f a = Throw e ->
  mapM f (pre ++ a :: post)%list = Throw e.
Proof.
  intros Hpre Ha. induction Hpre as [|x pre [b Hb] _ IH]; simpl.
  - now rewrite Ha.
  - now rewrite Hb, bind_Ok, IH.
Qed.

Section ParameterLocations.
Context `{!Collaborators}.
Variable fromSchema : option Schema -> Res INodeProperties.
Variable getArrayItemDefault : SchemaObject -> option value.

Abbreviation compileParameter :=
  (Shared.fromParameter fromSchema getArrayItemDefault).

Lemma arrayQuerySchema_none po so :
  (p_in po = "query" -> isStr (s_type so) "array" = false) ->
  Shared.arrayQuerySchema po (Some so) = None.
Proof.
  intros Hscalar. unfold Shared.arrayQuerySchema.
  destruct (String.eqb_spec (p_in po) "query") as [Hin|_]; [|reflexivity].
  now rewrite (Hscalar Hin).
Qed.

Lemma fromParameter_located p po s compiled so :
  resolveParameter p = Ok po ->
  parameterSchemaNode po = Some s ->
  fromSchema (Some s) = Ok compiled ->
  resolveSchema (Some s) = Ok (Some so) ->
  (p_in po = "query" -> isStr (s_type so) "array" = false) ->
  f_required compiled = None ->
  f_routing compiled = None ->
  In (p_in po) ["query"; "path"; "header"] ->
  exists field,
    compileParameter p = Ok field
    /\ overlays po compiled field
    /\ routedByLocation po field.
Proof.
  intros Hp Hnode Hcompiled Hs Hscalar Hrequired Hrouting Hin.
  rewrite (fromParameter_schema_found _ _ _ _ _ _ Hp Hnode Hcompiled).
  rewrite Hs, bind_Ok; cbn beta zeta.
  rewrite (arrayQuerySchema_none _ _ Hscalar), bind_Ok; cbn beta.
  unfold overlays, routedByLocation.
  destruct Hin as [<-|[<-|[<-|[]]]];
    cbn [String.eqb Ascii.eqb Bool.eqb]; rewrite bind_Ok;
    (eexists; split; [reflexivity|]);
    destruct (p_required po) as [[|]|], (p_description po) as [[|c d]|],
      (p_example po); simpl; rewrite ?Hrequired, ?Hrouting; simpl;
    repeat split; reflexivity.
Qed.

Lemma fromParameter_unknown_location p po s compiled so :
  resolveParameter p = Ok po ->
  parameterSchemaNode po = Some s ->
  fromSchema (Some s) = Ok compiled ->
  resolveSchema (Some s) = Ok (Some so) ->
  ~ In (p_in po) ["query"; "path"; "header"] ->
  compileParameter p
  = Throw (Error ("Unknown parameter location '" +:+ p_in po +:+ "'")).
Proof.
  intros Hp Hnode Hcompiled Hs Hin.
  rewrite (fromParameter_schema_found _ _ _ _ _ _ Hp Hnode Hcompiled).
  rewrite Hs, bind_Ok; cbn beta zeta.
  rewrite arrayQuerySchema_none, bind_Ok; cbn beta.
  - destruct (String.eqb_spec (p_in po) "query") as [Heq|_];
      [exfalso; apply Hin; rewrite Heq; simpl; auto|].
    destruct (String.eqb_spec (p_in po) "path") as [Heq|_];
      [exfalso; apply Hin; rewrite Heq; simpl; auto|].
    destruct (String.eqb_spec (p_in po) "header") as [Heq|_];
      [exfalso; apply Hin; rewrite Heq; simpl; auto|].
    reflexivity.
  - intros Heq. exfalso. apply Hin. rewrite Heq. simpl. auto.
Qed.

Lemma fromParameter_array_without_items p po s compiled so :
  resolveParameter p = Ok po ->
  parameterSchemaNode po = Some s ->
  fromSchema (Some s) = Ok compiled ->
  resolveSchema (Some s) = Ok (Some so) ->
  p_in po = "query" ->
  s_type so = Some "array" ->
  s_items so = None ->
  compileParameter p
  = Throw (Error "fromArrayQueryParameter called with non-array schema").
Proof.
  intros Hp Hnode Hcompiled Hs Hin Harr Hitems.
  rewrite (fromParameter_schema_found _ _ _ _ _ _ Hp Hnode Hcompiled).
  rewrite Hs, bind_Ok; cbn beta zeta.
  rewrite (arrayQuerySchema_array _ _ Hin Harr).
  unfold Shared.fromArrayQueryParameter. rewrite Harr, Hitems. reflexivity.
Qed.

Lemma fromParameter_collection p po s compiled so items ito :
  resolveParameter p = Ok po ->
  parameterSchemaNode po = Some s ->
  fromSchema (Some s) = Ok compiled ->
  resolveSchema (Some s) = Ok (Some so) ->
  p_in po = "query" ->
  s_type so = Some "array" ->
  s_items so = Some items ->
  resolveSchema (Some items) = Ok (Some ito) ->
  compileParameter p
  = Ok {| f_displayName := Some (startCase (VStr (p_name po)));
          f_name := Some (encodeURIComponent (replaceDots (p_name po)));
          f_required := if truthyBool (p_required po) then Some true else None;
          f_description :=
            if truthyStr (p_description po) then p_description po
            else orStr (s_description so) (p_description po);
          f_default :=
            orElse (p_example po) (Some (collectionDefault (extractExample so)));
          f_type := Some NFixedCollection;
          f_options := Some [Collection "items" "Items"
            [ {| i_displayName := "Value";
                 i_name := "value";
                 i_type := Shared.getArrayItemType ito;
                 i_default := getArrayItemDefault ito;
                 i_description := itemDescription ito |} ]];
          f_typeOptions := Some {| multipleValues := true |};
          f_routing := Some (arrayQueryRoutingOf po) |}.
Proof.
  intros Hp Hnode Hcompiled Hs Hin Harr Hitems Hito.
  rewrite (fromParameter_schema_found _ _ _ _ _ _ Hp Hnode Hcompiled).
  rewrite Hs, bind_Ok; cbn beta zeta.
  rewrite (arrayQuerySchema_array _ _ Hin Harr), Hin, getArrayQueryRouting_spec.
  replace (String.eqb "query" "query") with true by reflexivity.
  unfold Shared.fromArrayQueryParameter. rewrite Harr, Hitems, Hito.
  replace (isStr (Some "array") "array") with true by reflexivity.
  cbn [negb orb defined deref]. rewrite !bind_Ok.
  unfold collectionDefault, itemDescription.
  destruct (extractExample so) as [[| | | |[|v vs]|]|];
    rewrite ?bind_Ok; simpl;
    destruct (p_required po) as [[|]|], (p_description po) as [[|c d]|],
      (p_example po); reflexivity.
Qed.
End ParameterLocations.

Lemma SparseDefaults_fromSchema_bare `{!Collaborators} schema so :
  resolveSchema schema = Ok (Some so) ->
  exists compiled,
    SparseDefaults.fromSchema schema = Ok compiled
    /\ f_required compiled = None
    /\ f_routing compiled = None.
Proof.
  intros Hres. rewrite (SparseDefaults_fromSchema_resolved _ _ Hres).
  eexists. split; [reflexivity|]. now destruct (s_enum so) as [[|e es]|].
Qed.

Lemma ConcreteDefaults_fromSchema_bare `{!Collaborators} schema so :
  resolveSchema schema = Ok (Some so) ->
  exists compiled,
    ConcreteDefaults.fromSchema schema = Ok compiled
    /\ f_required compiled = None
    /\ f_routing compiled = None.
Proof.
  intros Hres. rewrite (ConcreteDefaults_fromSchema_resolved _ _ Hres).
  eexists. split; [reflexivity|]. now destruct (s_enum so) as [[|e es]|].
Qed.

(** X15. A parameter in the query, the path or a header whose schema is
    found and resolves, and that is no array query parameter, compiles in
    both listings to the compiled schema with the parameter's facts laid
    over it: the label is [startCase] of the name, the machine name is
    the name with its dots turned into hyphens and then percent-encoded,
    a non-empty description of the parameter goes before the schema's,
    an example of the parameter goes before the schema's default, and
    type and options are the schema's. *)
Theorem parameter_facts_overlay_the_schema `{!Collaborators} p po s so :
  resolveParameter p = Ok po ->
  parameterSchemaNode po = Some s ->
  resolveSchema (Some s) = Ok (Some so) ->
  (p_in po = "query" -> isStr (s_type so) "array" = false) ->
  In (p_in po) ["query"; "path"; "header"] ->
  exists compiledSparse compiledConcrete sparse concrete,
    SparseDefaults.fromSchema (Some s) = Ok compiledSparse
    /\ ConcreteDefaults.fromSchema (Some s) = Ok compiledConcrete
    /\ SparseDefaults.fromParameter p = Ok sparse
    /\ ConcreteDefaults.fromParameter p = Ok concrete
    /\ overlays po compiledSparse sparse
    /\ overlays po compiledConcrete concrete.
Proof.
  intros Hp Hnode Hs Hscalar Hin.
  destruct (SparseDefaults_fromSchema_bare _ _ Hs) as (cs & Hcs & Hrs & Hos).
  destruct (ConcreteDefaults_fromSchema_bare _ _ Hs) as (cc & Hcc & Hrc & Hoc).
  destruct (fromParameter_located SparseDefaults.fromSchema
              SparseDefaults.getArrayItemDefault p po s cs so
              Hp Hnode Hcs Hs Hscalar Hrs Hos Hin) as (sparse & Hsparse & Hover & _).
  destruct (fromParameter_located ConcreteDefaults.fromSchema
              ConcreteDefaults.getArrayItemDefault p po s cc so
              Hp Hnode Hcc Hs Hscalar Hrc Hoc Hin)
    as (concrete & Hconcrete & Hover' & _).
  exists cs, cc, sparse, concrete. tauto.
Qed.

(** The header [x.trace id]: its own description and example win. *)
Lemma parameter_facts_overlay_the_schema_witness :
  exists sparse,
    SparseDefaults.fromParameter (H := plainCollaborators) (PInline traceParameter)
    = Ok sparse
    /\ f_displayName sparse = Some "X Trace Id"
    /\ f_name sparse = Some "x-trace%20id"
    /\ f_description sparse = Some "Trace of the caller"
    /\ f_default sparse = Some (VStr "abc")
    /\ f_type sparse = Some NString.
Proof.
  assert (Hscalar : p_in traceParameter = "query" ->
                    isStr (Some "string") "array" = false) by discriminate.
  assert (Hin : In (p_in traceParameter) ["query"; "path"; "header"])
    by (simpl; auto).
  destruct (parameter_facts_overlay_the_schema (H := plainCollaborators)
              (PInline traceParameter) traceParameter _ _
              eq_refl eq_refl eq_refl Hscalar Hin)
    as (cs & cc & sparse & concrete & Hcs & _ & Hsparse & _ & Hover & _).
  exists sparse. split; [exact Hsparse|].
  simpl in Hcs. injection Hcs as <-.
  destruct Hover as (Hlabel & Hname & Hdesc & Hdef & Htype & _).
  repeat split; assumption.
Defined.

(** X16. For such a parameter the required flag is [true] when the
    parameter is in the path or declares [required: true], and absent
    otherwise; the routing places the raw value under the parameter's
    name in the query for a query parameter and in the headers for a
    header, and a path parameter gets no routing at all. *)
Theorem parameter_routed_by_location `{!Collaborators} p po s so :
  resolveParameter p = Ok po ->
  parameterSchemaNode po = Some s ->
  resolveSchema (Some s) = Ok (Some so) ->
  (p_in po = "query" -> isStr (s_type so) "array" = false) ->
  In (p_in po) ["query"; "path"; "header"] ->
  exists sparse concrete,
    SparseDefaults.fromParameter p = Ok sparse
    /\ ConcreteDefaults.fromParameter p = Ok concrete
    /\ routedByLocation po sparse
    /\ routedByLocation po concrete.
Proof.
  intros Hp Hnode Hs Hscalar Hin.
  destruct (SparseDefaults_fromSchema_bare _ _ Hs) as (cs & Hcs & Hrs & Hos).
  destruct (ConcreteDefaults_fromSchema_bare _ _ Hs) as (cc & Hcc & Hrc & Hoc).
  destruct (fromParameter_located SparseDefaults.fromSchema
              SparseDefaults.getArrayItemDefault p po s cs so
              Hp Hnode Hcs Hs Hscalar Hrs Hos Hin) as (sparse & Hsparse & _ & Hroute).
  destruct (fromParameter_located ConcreteDefaults.fromSchema
              ConcreteDefaults.getArrayItemDefault p po s cc so
              Hp Hnode Hcc Hs Hscalar Hrc Hoc Hin)
    as (concrete & Hconcrete & _ & Hroute').
  exists sparse, concrete. tauto.
Qed.

(** The path parameter [id]: required, and not routed. *)
Lemma parameter_routed_by_location_witness :
  exists sparse,
    SparseDefaults.fromParameter (H := plainCollaborators) (PInline idParameter)
    = Ok sparse
    /\ f_required sparse = Some true
    /\ f_routing sparse = None.
Proof.
  assert (Hscalar : p_in idParameter = "query" ->
                    isStr (Some "string") "array" = false) by discriminate.
  assert (Hin : In (p_in idParameter) ["query"; "path"; "header"])
    by (simpl; auto).
  destruct (parameter_routed_by_location (H := plainCollaborators)
              (PInline idParameter) idParameter _ _
              eq_refl eq_refl eq_refl Hscalar Hin)
    as (sparse & concrete & Hsparse & _ & Hroute & _).
  exists sparse. split; [exact Hsparse | exact Hroute].
Defined.

(** X17. A parameter whose schema is found and resolves, and whose
    location is none of query, path and header (a cookie parameter, for
    one), makes [fromParameter] raise the explicit error that names the
    location, in both listings. *)
Theorem unknown_location_is_rejected `{!Collaborators} p po s so :
  resolveParameter p = Ok po ->
  parameterSchemaNode po = Some s ->
  resolveSchema (Some s) = Ok (Some so) ->
  ~ In (p_in po) ["query"; "path"; "header"] ->
  SparseDefaults.fromParameter p
  = Throw (Error ("Unknown parameter location '" +:+ p_in po +:+ "'"))
  /\ ConcreteDefaults.fromParameter p
     = Throw (Error ("Unknown parameter location '" +:+ p_in po +:+ "'")).
Proof.
  intros Hp Hnode Hs Hin.
  destruct (SparseDefaults_fromSchema_bare _ _ Hs) as (cs & Hcs & _).
  destruct (ConcreteDefaults_fromSchema_bare _ _ Hs) as (cc & Hcc & _).
  split.
  - exact (fromParameter_unknown_location SparseDefaults.fromSchema
             SparseDefaults.getArrayItemDefault p po s cs so Hp Hnode Hcs Hs Hin).
  - exact (fromParameter_unknown_location ConcreteDefaults.fromSchema
             ConcreteDefaults.getArrayItemDefault p po s cc so Hp Hnode Hcc Hs Hin).
Qed.

(** The cookie [session]. *)
Lemma unknown_location_is_rejected_witness :
  SparseDefaults.fromParameter (H := plainCollaborators) (PInline cookieParameter)
  = Throw (Error "Unknown parameter location 'cookie'")
  /\ ConcreteDefaults.fromParameter (H := plainCollaborators) (PInline cookieParameter)
     = Throw (Error "Unknown parameter location 'cookie'").
Proof.
  apply (unknown_location_is_rejected (H := plainCollaborators)
           (PInline cookieParameter) cookieParameter
           (SInline (schemaOfType "string")) (schemaOfType "string"));
    try reflexivity.
  simpl. intros [Hq|[Hp|[Hh|[]]]]; discriminate.
Defined.

(** X18. A query parameter whose schema resolves to the array kind
    without items makes [fromParameter] raise the explicit error of
    [fromArrayQueryParameter], in both listings. *)
Theorem array_query_needs_items `{!Collaborators} p po s so :
  resolveParameter p = Ok po ->
  parameterSchemaNode po = Some s ->
  resolveSchema (Some s) = Ok (Some so) ->
  p_in po = "query" ->
  s_type so = Some "array" ->
  s_items so = None ->
  SparseDefaults.fromParameter p
  = Throw (Error "fromArrayQueryParameter called with non-array schema")
  /\ ConcreteDefaults.fromParameter p
     = Throw (Error "fromArrayQueryParameter called with non-array schema").
Proof.
  intros Hp Hnode Hs Hin Harr Hitems.
  destruct (SparseDefaults_fromSchema_bare _ _ Hs) as (cs & Hcs & _).
  destruct (ConcreteDefaults_fromSchema_bare _ _ Hs) as (cc & Hcc & _).
  split.
  - exact (fromParameter_array_without_items SparseDefaults.fromSchema
             SparseDefaults.getArrayItemDefault p po s cs so
             Hp Hnode Hcs Hs Hin Harr Hitems).
  - exact (fromParameter_array_without_items ConcreteDefaults.fromSchema
             ConcreteDefaults.getArrayItemDefault p po s cc so
             Hp Hnode Hcc Hs Hin Harr Hitems).
Qed.

(** The query parameter [ids] with [{type: array}] alone. *)
Lemma array_query_needs_items_witness :
  SparseDefaults.fromParameter (H := plainCollaborators) (PInline looseArrayParameter)
  = Throw (Error "fromArrayQueryParameter called with non-array schema")
  /\ ConcreteDefaults.fromParameter (H := plainCollaborators)
       (PInline looseArrayParameter)
     = Throw (Error "fromArrayQueryParameter called with non-array schema").
Proof.
  exact (array_query_needs_items (H := plainCollaborators)
           (PInline looseArrayParameter) looseArrayParameter
           (SInline (schemaOfType "array")) (schemaOfType "array")
           eq_refl eq_refl eq_refl eq_refl eq_refl eq_refl).
Defined.

(** X19. A query parameter whose schema resolves to an array with items
    that resolve compiles, in both listings, to a collection: type
    [fixedCollection], multiple values, one option [items] holding the
    single sub-field [value] typed by [getArrayItemType] and defaulted by
    the listing's [getArrayItemDefault]; the default of the collection is
    the parameter's example if it has one, else one item per element of
    a non-empty array example of the schema, else the empty object. *)
Theorem array_query_is_a_collection `{!Collaborators} p po s so items ito :
  resolveParameter p = Ok po ->
  parameterSchemaNode po = Some s ->
  resolveSchema (Some s) = Ok (Some so) ->
  p_in po = "query" ->
  s_type so = Some "array" ->
  s_items so = Some items ->
  resolveSchema (Some items) = Ok (Some ito) ->
  exists sparse concrete,
    SparseDefaults.fromParameter p = Ok sparse
    /\ ConcreteDefaults.fromParameter p = Ok concrete
    /\ isCollectionOf po so ito (SparseDefaults.getArrayItemDefault ito) sparse
    /\ isCollectionOf po so ito (ConcreteDefaults.getArrayItemDefault ito) concrete.
Proof.
  intros Hp Hnode Hs Hin Harr Hitems Hito.
  destruct (SparseDefaults_fromSchema_bare _ _ Hs) as (cs & Hcs & _).
  destruct (ConcreteDefaults_fromSchema_bare _ _ Hs) as (cc & Hcc & _).
  eexists _, _. split; [|split].
  - exact (fromParameter_collection SparseDefaults.fromSchema
             SparseDefaults.getArrayItemDefault p po s cs so items ito
             Hp Hnode Hcs Hs Hin Harr Hitems Hito).
  - exact (fromParameter_collection ConcreteDefaults.fromSchema
             ConcreteDefaults.getArrayItemDefault p po s cc so items ito
             Hp Hnode Hcc Hs Hin Harr Hitems Hito).
  - split; (split; [reflexivity|split; [reflexivity|split; reflexivity]]).
Qed.

(** The query parameter [ids] with the example [[4, 2]]: two items by
    default, and a sub-field that is a number without a default in the
    first listing. *)
Lemma array_query_is_a_collection_witness :
  exists sparse,
    SparseDefaults.fromParameter (H := plainCollaborators) (PInline idsParameter)
    = Ok sparse
    /\ f_default sparse
       = Some (VObj [("items", VArr [VObj [("value", VNum 4)];
                                     VObj [("value", VNum 2)]])])
    /\ f_options sparse
       = Some [Collection "items" "Items"
                 [ {| i_displayName := "Value"; i_name := "value";
                      i_type := NNumber; i_default := None;
                      i_description := "Item value (integer)" |} ]].
Proof.
  destruct (array_query_is_a_collection (H := plainCollaborators)
              (PInline idsParameter) idsParameter _ _ _ _
              eq_refl eq_refl eq_refl eq_refl eq_refl eq_refl eq_refl)
    as (sparse & concrete & Hsparse & _ & (_ & _ & Hdefault & Hoptions) & _).
  exists sparse. split; [exact Hsparse|]. split; [exact Hdefault | exact Hoptions].
Defined.

(** X20. The default of the sub-field of a collection.  An example of
    the items wins in both listings.  Without one the second listing
    always gives the default of the sub-field's kind ([false], [0] or
    the empty text), and the first listing gives [false] for booleans
    and no default at all otherwise; so the second listing's default is
    never absent, and the listings agree wherever the first has one. *)
Theorem item_defaults `{!Collaborators} (ito : SchemaObject) :
  (forall d, extractExample ito = Some d ->
     SparseDefaults.getArrayItemDefault ito = Some d
     /\ ConcreteDefaults.getArrayItemDefault ito = Some d)
  /\ (extractExample ito = None ->
        ConcreteDefaults.getArrayItemDefault ito
        = Some (kindDefault (Shared.getArrayItemType ito))
        /\ SparseDefaults.getArrayItemDefault ito
           = (if isStr (s_type ito) "boolean" then Some (VBool false) else None))
  /\ (forall d, SparseDefaults.getArrayItemDefault ito = Some d ->
        ConcreteDefaults.getArrayItemDefault ito = Some d).
Proof.
  unfold SparseDefaults.getArrayItemDefault, ConcreteDefaults.getArrayItemDefault,
    Shared.getArrayItemType.
  split; [|split].
  - intros d ->. now split.
  - intros ->. split; [|reflexivity].
    destruct (isStr (s_type ito) "boolean") eqn:Hb; [reflexivity|].
    destruct (isStr (s_type ito) "number") eqn:Hn; [reflexivity|].
    destruct (isStr (s_type ito) "integer") eqn:Hi; reflexivity.
  - intros d. destruct (extractExample ito); [easy|].
    now destruct (isStr (s_type ito) "boolean").
Qed.

(** X21. [fromParameters] stops at the first parameter that fails: when
    every parameter before it compiles, the error of that parameter is
    the error of the list, whatever comes after it. *)
Theorem first_failing_parameter_decides `{!Collaborators} before p after e e' :
  Forall (fun x => exists field, SparseDefaults.fromParameter x = Ok field) before ->
  Forall (fun x => exists field, ConcreteDefaults.fromParameter x = Ok field) before ->
  SparseDefaults.fromParameter p = Throw e ->
  ConcreteDefaults.fromParameter p = Throw e' ->
  SparseDefaults.fromParameters (Some (before ++ p :: after)%list) = Throw e
  /\ ConcreteDefaults.fromParameters (Some (before ++ p :: after)%list) = Throw e'.
Proof.
  intros Hbefore Hbefore' Hp Hp'. split.
  - exact (mapM_first_failure _ _ _ _ _ Hbefore Hp).
  - exact (mapM_first_failure _ _ _ _ _ Hbefore' Hp').
Qed.

(** The path parameter [id], then a cookie, then a parameter without any
    schema: the cookie's error is raised. *)
Lemma first_failing_parameter_decides_witness :
  SparseDefaults.fromParameters (H := plainCollaborators)
    (Some [PInline idParameter; PInline cookieParameter; PInline bareParameter])
  = Throw (Error "Unknown parameter location 'cookie'")
  /\ ConcreteDefaults.fromParameters (H := plainCollaborators)
       (Some [PInline idParameter; PInline cookieParameter; PInline bareParameter])
     = Throw (Error "Unknown parameter location 'cookie'").
Proof.
  apply (first_failing_parameter_decides (H := plainCollaborators)
           [PInline idParameter] (PInline cookieParameter) [PInline bareParameter]).
  - repeat constructor. eexists. reflexivity.
  - repeat constructor. eexists. reflexivity.
  - reflexivity.
  - reflexivity.
Defined.

(** X22. [fromParameters] of a list compiles every parameter, one field
    per parameter and in the order of the list: it returns a list of
    fields exactly when each parameter compiles to the field at its
    place. *)
Theorem parameters_compile_in_order `{!Collaborators}
    (parameters : list ParameterOrRef) (fields : list INodeProperties) :
  (SparseDefaults.fromParameters (Some parameters) = Ok fields
   <-> Forall2 (fun p field => SparseDefaults.fromParameter p = Ok field)
         parameters fields)
  /\ (ConcreteDefaults.fromParameters (Some parameters) = Ok fields
      <-> Forall2 (fun p field => ConcreteDefaults.fromParameter p = Ok field)
            parameters fields).
Proof. split; apply mapM_Ok_iff. Qed.

Lemma replaceDots_length name :
  String.length (replaceDots name) = String.length name.
Proof. induction name as [|c rest IH]; simpl; [reflexivity | now rewrite IH]. Qed.

Lemma replaceDots_no_dot name :
  ~ In "."%char (String.list_ascii_of_string (replaceDots name)).
Proof.
  induction name as [|c rest IH]; simpl; [tauto|].
  intros [Hc|Hrest]; [|tauto].
  destruct (Ascii.eqb c ".") eqn:Hdot; [discriminate|].
  subst c. discriminate.
Qed.

Lemma fromSchemaProperty_resolved `{!Collaborators}
    (fromSchema : option Schema -> Res INodeProperties) key property compiled :
  fromSchema property = Ok compiled ->
  f_required compiled = None ->
  f_routing compiled = None ->
  exists field,
    Shared.fromSchemaProperty fromSchema key property = Ok field
    /\ namesProperty key compiled field.
Proof.
  intros Hcompiled Hrequired Hrouting. unfold Shared.fromSchemaProperty.
  rewrite Hcompiled, bind_Ok. eexists. split; [reflexivity|].
  unfold namesProperty; simpl. rewrite Hrequired, Hrouting.
  repeat split; reflexivity.
Qed.

(** X23. [fromSchemaProperty] of a key and a schema that resolves gives,
    in both listings, the compiled schema under the label [startCase] of
    the key and under the key with its dots turned into hyphens as the
    machine name, which is not percent-encoded, has the length of the
    key and holds no dot; the field has neither a required flag nor a
    routing. *)
Theorem property_named_by_its_key `{!Collaborators} key s so :
  resolveSchema (Some s) = Ok (Some so) ->
  exists compiledSparse compiledConcrete sparse concrete,
    SparseDefaults.fromSchema (Some s) = Ok compiledSparse
    /\ ConcreteDefaults.fromSchema (Some s) = Ok compiledConcrete
    /\ SparseDefaults.fromSchemaProperty key (Some s) = Ok sparse
    /\ ConcreteDefaults.fromSchemaProperty key (Some s) = Ok concrete
    /\ namesProperty key compiledSparse sparse
    /\ namesProperty key compiledConcrete concrete
    /\ String.length (replaceDots key) = String.length key
    /\ ~ In "."%char (String.list_ascii_of_string (replaceDots key)).
Proof.
  intros Hs.
  destruct (SparseDefaults_fromSchema_bare _ _ Hs) as (cs & Hcs & Hrs & Hos).
  destruct (ConcreteDefaults_fromSchema_bare _ _ Hs) as (cc & Hcc & Hrc & Hoc).
  destruct (fromSchemaProperty_resolved _ key _ _ Hcs Hrs Hos) as (sparse & Hsparse & Hn).
  destruct (fromSchemaProperty_resolved _ key _ _ Hcc Hrc Hoc)
    as (concrete & Hconcrete & Hn').
  exists cs, cc, sparse, concrete.
  pose proof (replaceDots_length key). pose proof (replaceDots_no_dot key).
  tauto.
Qed.

(** The key [address.zip code] of a string property. *)
Lemma property_named_by_its_key_witness :
  exists sparse,
    SparseDefaults.fromSchemaProperty (H := plainCollaborators) "address.zip code"
      (Some (SInline (schemaOfType "string"))) = Ok sparse
    /\ f_displayName sparse = Some "Address Zip Code"
    /\ f_name sparse = Some "address-zip code"
    /\ f_type sparse = Some NString.
Proof.
  destruct (property_named_by_its_key (H := plainCollaborators) "address.zip code"
              (SInline (schemaOfType "string")) (schemaOfType "string") eq_refl)
    as (cs & cc & sparse & concrete & Hcs & _ & Hsparse & _ & Hn & _).
  exists sparse. split; [exact Hsparse|].
  simpl in Hcs. injection Hcs as <-.
  destruct Hn as (Hlabel & Hname & _ & _ & Htype & _).
  repeat split; assumption.
Defined.

(** ** Request bodies that are not objects *)

Lemma pickContent_found c key media :
  List.find (fun entry : string * MediaTypeObject => jsonRegexp entry.1) c
  = Some (key, media) ->
  pickContent c = Some (media, "application/json").
Proof. intros Hfind. unfold pickContent. now rewrite Hfind. Qed.

Lemma isStr_In_scalar (kind : option string) :
  In kind scalarKinds ->
  isStr kind "string" || isStr kind "number" || isStr kind "integer"
  || isStr kind "boolean" = true.
Proof.
  unfold scalarKinds.
  intros [<-|[<-|[<-|[<-|[]]]]]; reflexivity.
Qed.

Lemma isStr_not_In_scalar (kind : option string) :
  ~ In kind scalarKinds ->
  isStr kind "string" || isStr kind "number" || isStr kind "integer"
  || isStr kind "boolean" = false.
Proof.
  intros Hnot. destruct kind as [k|]; [|reflexivity]. simpl.
  destruct (String.eqb_spec k "string") as [->|_];
    [exfalso; apply Hnot; simpl; auto|].
  destruct (String.eqb_spec k "number") as [->|_];
    [exfalso; apply Hnot; simpl; auto|].
  destruct (String.eqb_spec k "integer") as [->|_];
    [exfalso; apply Hnot; simpl; auto|].
  destruct (String.eqb_spec k "boolean") as [->|_];
    [exfalso; apply Hnot; simpl; auto|].
  reflexivity.
Qed.

Lemma isStr_false (kind : option string) (lit : string) :
  kind <> Some lit -> isStr kind lit = false.
Proof.
  intros Hne. destruct kind as [k|]; [|reflexivity]. simpl.
  destruct (String.eqb_spec k lit) as [->|_]; [congruence | reflexivity].
Qed.

(** X24. In the first listing a body whose chosen content has a schema
    of a scalar kind without properties compiles to the single field
    [body], labelled [Body], with the kind, default and options of the
    compiled schema, the schema's description or else a fixed text,
    required only when the body declares [required: true], and sent raw
    as the whole body of the request; unless the content is the wildcard
    media type and the kind is [string]. *)
Theorem scalar_body_is_one_raw_field `{!Collaborators}
    body b c media contentType so :
  resolveRequestBody body = Ok b ->
  b_content b = Some c ->
  pickContent c = Some (media, contentType) ->
  resolveSchema (m_schema media) = Ok (Some so) ->
  resolveSchema (Some (SInline so)) = Ok (Some so) ->
  s_properties so = None ->
  In (s_type so) scalarKinds ->
  (contentType = "*/*" -> s_type so <> Some "string") ->
  exists compiled,
    SparseDefaults.fromSchema (Some (SInline so)) = Ok compiled
    /\ SparseDefaults.fromRequestBody (Some body)
       = Ok [ {| f_displayName := Some "Body";
                 f_name := Some "body";
                 f_required := if truthyBool (b_required b) then Some true else None;
                 f_description :=
                   orStr (s_description so) (Some "Request body content");
                 f_default := f_default compiled;
                 f_type := f_type compiled;
                 f_options := f_options compiled;
                 f_typeOptions := None;
                 f_routing := Some (wholeBodyRouting rawValue) |} ].
Proof.
  intros Hbody Hc Hpick Hso Hagain Hprops Hscalar Hnotbinary.
  destruct (SparseDefaults_fromSchema_bare _ _ Hagain) as (compiled & Hcompiled & Hr & Ho).
  exists compiled. split; [exact Hcompiled|].
  rewrite (SparseDefaults_fromRequestBody_pick _ _ _ Hbody Hc), Hpick.
  unfold SparseDefaults.compileContent.
  rewrite Hso, bind_Ok; cbn [deref]; rewrite bind_Ok, Hprops.
  rewrite (isStr_In_scalar _ Hscalar); cbn [defined negb andb].
  rewrite Hcompiled, bind_Ok.
  assert (Hbin : String.eqb contentType "*/*" && isStr (s_type so) "string" = false).
  { destruct (String.eqb_spec contentType "*/*") as [Hct|_]; [|reflexivity].
    simpl. apply isStr_false. now apply Hnotbinary. }
  cbv zeta. rewrite Hbin.
  pose proof (SparseDefaults_fromSchema_resolved _ _ Hagain) as Hshape.
  rewrite Hcompiled in Hshape. injection Hshape as ->.
  unfold combine, setRouting, wholeBodyRouting, orStr; simpl.
  destruct (b_required b) as [[|]|], (s_description so) as [[|ch d]|],
    (s_enum so) as [[|e es]|]; reflexivity.
Qed.

(** A body of the number kind under [text/plain], required. *)
Lemma scalar_body_is_one_raw_field_witness :
  SparseDefaults.fromRequestBody (H := plainCollaborators)
    (Some (BInline (bodyOf "text/plain" (schemaOfType "number") (Some true))))
  = Ok [ {| f_displayName := Some "Body";
            f_name := Some "body";
            f_required := Some true;
            f_description := Some "Request body content";
            f_default := None;
            f_type := Some NNumber;
            f_options := None;
            f_typeOptions := None;
            f_routing := Some (wholeBodyRouting rawValue) |} ].
Proof.
  assert (Hin : In (s_type (schemaOfType "number")) scalarKinds)
    by (simpl; auto).
  assert (Hnotbinary : "text/plain" = "*/*" ->
                       s_type (schemaOfType "number") <> Some "string")
    by discriminate.
  destruct (scalar_body_is_one_raw_field (H := plainCollaborators)
              (BInline (bodyOf "text/plain" (schemaOfType "number") (Some true)))
              (bodyOf "text/plain" (schemaOfType "number") (Some true))
              _ _ "text/plain" (schemaOfType "number")
              eq_refl eq_refl eq_refl eq_refl eq_refl eq_refl Hin Hnotbinary)
    as (compiled & Hcompiled & Hfields).
  simpl in Hcompiled. injection Hcompiled as <-. exact Hfields.
Defined.

(** X25. In the first listing a body whose chosen content is the
    wildcard media type with a schema of the string kind without
    properties compiles to the single field of a binary upload: named
    [body], labelled [Binary Property], of type string with the default
    [data] and a fixed description, sent as the body with the content
    type of the binary property; the options of the compiled schema are
    kept. *)
Theorem wildcard_string_body_is_an_upload `{!Collaborators} body b c media so :
  resolveRequestBody body = Ok b ->
  b_content b = Some c ->
  pickContent c = Some (media, "*/*") ->
  resolveSchema (m_schema media) = Ok (Some so) ->
  resolveSchema (Some (SInline so)) = Ok (Some so) ->
  s_properties so = None ->
  s_type so = Some "string" ->
  exists compiled,
    SparseDefaults.fromSchema (Some (SInline so)) = Ok compiled
    /\ SparseDefaults.fromRequestBody (Some body)
       = Ok [ {| f_displayName := Some "Binary Property";
                 f_name := Some "body";
                 f_required := if truthyBool (b_required b) then Some true else None;
                 f_description :=
                   Some "Name of the binary property containing the file to upload";
                 f_default := Some (VStr "data");
                 f_type := Some NString;
                 f_options := f_options compiled;
                 f_typeOptions := None;
                 f_routing := Some uploadRouting |} ].
Proof.
  intros Hbody Hc Hpick Hso Hagain Hprops Htype.
  destruct (SparseDefaults_fromSchema_bare _ _ Hagain) as (compiled & Hcompiled & Hr & Ho).
  exists compiled. split; [exact Hcompiled|].
  rewrite (SparseDefaults_fromRequestBody_pick _ _ _ Hbody Hc), Hpick.
  unfold SparseDefaults.compileContent.
  rewrite Hso, bind_Ok; cbn [deref]; rewrite bind_Ok, Hprops, Htype.
  replace (isStr (Some "string") "string") with true by reflexivity.
  cbn [defined negb andb orb].
  rewrite Hcompiled, bind_Ok.
  replace (String.eqb "*/*" "*/*") with true by reflexivity.
  cbv zeta. cbn [andb].
  pose proof (SparseDefaults_fromSchema_resolved _ _ Hagain) as Hshape.
  rewrite Hcompiled in Hshape. injection Hshape as ->.
  unfold combine, uploadRouting; simpl.
  destruct (b_required b) as [[|]|], (s_enum so) as [[|e es]|]; reflexivity.
Qed.

(** A string under the wildcard. *)
Lemma wildcard_string_body_is_an_upload_witness :
  SparseDefaults.fromRequestBody (H := plainCollaborators)
    (Some (BInline (bodyOf "*/*" (schemaOfType "string") None)))
  = Ok [ {| f_displayName := Some "Binary Property";
            f_name := Some "body";
            f_required := None;
            f_description :=
              Some "Name of the binary property containing the file to upload";
            f_default := Some (VStr "data");
            f_type := Some NString;
            f_options := None;
            f_typeOptions := None;
            f_routing := Some uploadRouting |} ].
Proof.
  destruct (wildcard_string_body_is_an_upload (H := plainCollaborators)
              (BInline (bodyOf "*/*" (schemaOfType "string") None))
              (bodyOf "*/*" (schemaOfType "string") None)
              _ _ (schemaOfType "string")
              eq_refl eq_refl eq_refl eq_refl eq_refl eq_refl eq_refl)
    as (compiled & Hcompiled & Hfields).
  simpl in Hcompiled. injection Hcompiled as <-. exact Hfields.
Defined.

(** X26. A JSON body whose schema declares no properties and whose kind
    is neither [object] nor [array] is rejected by the second listing
    with the explicit error that names the kind ([undefined] for an
    absent kind): so are all scalar bodies.  The first listing raises
    the same error when the kind is not scalar either. *)
Theorem unsupported_body_kind `{!Collaborators} body b c key media so :
  resolveRequestBody body = Ok b ->
  b_content b = Some c ->
  List.find (fun entry : string * MediaTypeObject => jsonRegexp entry.1) c
  = Some (key, media) ->
  resolveSchema (m_schema media) = Ok (Some so) ->
  s_properties so = None ->
  s_type so <> Some "object" ->
  s_type so <> Some "array" ->
  ConcreteDefaults.fromRequestBody (Some body) = Throw (notSupported (s_type so))
  /\ (~ In (s_type so) scalarKinds ->
      SparseDefaults.fromRequestBody (Some body) = Throw (notSupported (s_type so))).
Proof.
  intros Hbody Hc Hfind Hso Hprops Hobject Harray. split.
  - rewrite (ConcreteDefaults_fromRequestBody_json _ _ _ Hbody Hc), Hfind.
    unfold ConcreteDefaults.compileContent.
    rewrite Hso, bind_Ok; cbn [deref]; rewrite bind_Ok, Hprops.
    now rewrite (isStr_false _ _ Hobject), (isStr_false _ _ Harray).
  - intros Hscalar.
    rewrite (SparseDefaults_fromRequestBody_pick _ _ _ Hbody Hc),
      (pickContent_found _ _ _ Hfind).
    unfold SparseDefaults.compileContent.
    rewrite Hso, bind_Ok; cbn [deref]; rewrite bind_Ok, Hprops.
    rewrite (isStr_not_In_scalar _ Hscalar).
    now rewrite (isStr_false _ _ Hobject), (isStr_false _ _ Harray).
Qed.

(** A JSON body with a schema without any keyword, and one of the string
    kind. *)
Lemma unsupported_body_kind_witness :
  (ConcreteDefaults.fromRequestBody (H := plainCollaborators)
     (Some (BInline (bodyOf "application/json" anySchema None)))
   = Throw (Error "Request body schema type 'undefined' not supported")
   /\ SparseDefaults.fromRequestBody (H := plainCollaborators)
        (Some (BInline (bodyOf "application/json" anySchema None)))
      = Throw (Error "Request body schema type 'undefined' not supported"))
  /\ ConcreteDefaults.fromRequestBody (H := plainCollaborators)
       (Some (BInline (bodyOf "application/json" (schemaOfType "string") None)))
     = Throw (Error "Request body schema type 'string' not supported").
Proof.
  assert (Hobject : forall kind : string,
            s_type anySchema <> Some kind) by discriminate.
  assert (Hscalar : ~ In (s_type anySchema) scalarKinds)
    by (simpl; intros [H|[H|[H|[H|[]]]]]; discriminate).
  assert (Hstring : s_type (schemaOfType "string") <> Some "object") by discriminate.
  assert (Hstring' : s_type (schemaOfType "string") <> Some "array") by discriminate.
  destruct (unsupported_body_kind (H := plainCollaborators)
              (BInline (bodyOf "application/json" anySchema None))
              (bodyOf "application/json" anySchema None) _ _ _ anySchema
              eq_refl eq_refl eq_refl eq_refl eq_refl
              (Hobject "object") (Hobject "array")) as [Hconcrete Hsparse].
  destruct (unsupported_body_kind (H := plainCollaborators)
              (BInline (bodyOf "application/json" (schemaOfType "string") None))
              (bodyOf "application/json" (schemaOfType "string") None) _ _ _
              (schemaOfType "string")
              eq_refl eq_refl eq_refl eq_refl eq_refl
              Hstring Hstring') as [Hconcrete' _].
  exact (conj (conj Hconcrete (Hsparse Hscalar)) Hconcrete').
Defined.

(** X27. A JSON body whose schema is an array with items that resolve
    compiles to the field [body]: the compiled schema of the items, so
    of the kind of one item, parsed as JSON text before it is sent as
    the whole body.  In the first listing this is the only field, and
    it is required when the body declares [required: true]; in the
    second listing it is required when the schema has a [required] list
    at all, and the fields of the declared properties of the schema, if
    any, follow it. *)
Theorem array_body_is_one_parsed_field `{!Collaborators}
    body b c key media so items ito :
  resolveRequestBody body = Ok b ->
  b_content b = Some c ->
  List.find (fun entry : string * MediaTypeObject => jsonRegexp entry.1) c
  = Some (key, media) ->
  resolveSchema (m_schema media) = Ok (Some so) ->
  s_type so = Some "array" ->
  s_items so = Some items ->
  resolveSchema (Some items) = Ok (Some ito) ->
  resolveSchema (Some (SInline ito)) = Ok (Some ito) ->
  Forall (fun entry : string * Schema =>
            exists pso, resolveSchema (Some entry.2) = Ok (Some pso))
    (default [] (s_properties so)) ->
  exists compiledSparse compiledConcrete rest,
    SparseDefaults.fromSchema (Some (SInline ito)) = Ok compiledSparse
    /\ ConcreteDefaults.fromSchema (Some (SInline ito)) = Ok compiledConcrete
    /\ SparseDefaults.fromRequestBody (Some body)
       = Ok [parsedBodyField (b_required b) compiledSparse]
    /\ ConcreteDefaults.fromRequestBody (Some body)
       = Ok (parsedBodyField (Some (defined (s_required so))) compiledConcrete
             :: rest)
    /\ Forall2 (describesProperty ConcreteDefaults.fromSchema so)
         (default [] (s_properties so)) rest.
Proof.
  intros Hbody Hc Hfind Hso Htype Hitems Hito Hagain Hprops.
  destruct (properties_loop ConcreteDefaults.fromSchema so
              (default [] (s_properties so))) as (rest & Hrest & Hdescribed).
  { eapply Forall_impl; [exact Hprops|].
    intros entry [pso Hpso]. exact (ConcreteDefaults_fromSchema_no_required _ _ Hpso). }
  eexists _, _, rest.
  split; [exact (SparseDefaults_fromSchema_resolved _ _ Hagain)|].
  split; [exact (ConcreteDefaults_fromSchema_resolved _ _ Hagain)|].
  split; [|split; [|exact Hdescribed]].
  - rewrite (SparseDefaults_fromRequestBody_pick _ _ _ Hbody Hc),
      (pickContent_found _ _ _ Hfind).
    unfold SparseDefaults.compileContent.
    rewrite Hso, bind_Ok; cbn [deref]; rewrite bind_Ok, Htype, Hitems.
    replace (isStr (Some "array") "string") with false by reflexivity.
    replace (isStr (Some "array") "number") with false by reflexivity.
    replace (isStr (Some "array") "integer") with false by reflexivity.
    replace (isStr (Some "array") "boolean") with false by reflexivity.
    replace (isStr (Some "array") "array") with true by reflexivity.
    cbn [orb andb defined]. rewrite Bool.andb_false_r.
    rewrite Hito, bind_Ok; cbn [option_map].
    unfold SparseDefaults.fromSchemaProperty, Shared.fromSchemaProperty.
    rewrite (SparseDefaults_fromSchema_resolved _ _ Hagain), bind_Ok.
    unfold parsedBodyField, combine, wholeBodyRouting; simpl.
    destruct (b_required b) as [[|]|], (s_enum ito) as [[|e es]|]; reflexivity.
  - rewrite (ConcreteDefaults_fromRequestBody_json _ _ _ Hbody Hc), Hfind.
    unfold ConcreteDefaults.compileContent.
    rewrite Hso, bind_Ok; cbn [deref]; rewrite bind_Ok, Htype.
    replace (isStr (Some "array") "array") with true by reflexivity.
    cbn [negb]. rewrite !Bool.andb_false_r.
    unfold ConcreteDefaults.arrayBodyFields. rewrite Htype, Hitems.
    replace (isStr (Some "array") "array") with true by reflexivity.
    cbn [andb defined].
    rewrite Hito, bind_Ok; cbn [option_map].
    unfold ConcreteDefaults.fromSchemaProperty, Shared.fromSchemaProperty.
    rewrite (ConcreteDefaults_fromSchema_resolved _ _ Hagain), !bind_Ok.
    cbv zeta. rewrite ?bind_Ok.
    unfold ConcreteDefaults.propertyField. rewrite Hrest, ?bind_Ok.
    unfold parsedBodyField, combine, wholeBodyRouting; simpl.
    destruct (s_required so) as [required|], (s_enum ito) as [[|e es]|]; reflexivity.
Qed.

(** An array of integers that also declares the property [a]: the first
    listing gives the field [body] alone, the second gives it, with the
    default [0], and one more field. *)
Lemma array_body_is_one_parsed_field_witness :
  SparseDefaults.fromRequestBody (H := plainCollaborators)
    (Some (BInline (bodyOf "application/json" integersAndPropertiesSchema (Some true))))
  = Ok [ {| f_displayName := Some "Body";
            f_name := Some "body";
            f_required := Some true;
            f_description := None;
            f_default := None;
            f_type := Some NNumber;
            f_options := None;
            f_typeOptions := None;
            f_routing := Some (wholeBodyRouting parsedValue) |} ]
  /\ exists rest,
       ConcreteDefaults.fromRequestBody (H := plainCollaborators)
         (Some (BInline
                  (bodyOf "application/json" integersAndPropertiesSchema (Some true))))
       = Ok ({| f_displayName := Some "Body";
                f_name := Some "body";
                f_required := None;
                f_description := None;
                f_default := Some (VNum 0);
                f_type := Some NNumber;
                f_options := None;
                f_typeOptions := None;
                f_routing := Some (wholeBodyRouting parsedValue) |} :: rest)
       /\ length rest = 1.
Proof.
  assert (Hprops : Forall (fun entry : string * Schema =>
                     exists pso,
                       resolveSchema (Collaborators := plainCollaborators)
                         (Some entry.2) = Ok (Some pso))
                    (default [] (s_properties integersAndPropertiesSchema))).
  { repeat constructor. eexists. reflexivity. }
  destruct (array_body_is_one_parsed_field (H := plainCollaborators)
              (BInline (bodyOf "application/json" integersAndPropertiesSchema
                          (Some true)))
              (bodyOf "application/json" integersAndPropertiesSchema (Some true))
              _ _ _ integersAndPropertiesSchema _ (schemaOfType "integer")
              eq_refl eq_refl eq_refl eq_refl eq_refl eq_refl eq_refl eq_refl Hprops)
    as (cs & cc & rest & Hcs & Hcc & Hsparse & Hconcrete & Hrest).
  simpl in Hcs, Hcc. injection Hcs as <-. injection Hcc as <-.
  split; [exact Hsparse|].
  exists rest. split; [exact Hconcrete|].
  apply Forall2_length in Hrest. simpl in Hrest. now rewrite <- Hrest.
Defined.

(** X28. JSON bodies that describe no field.  A schema of the object
    kind without declared properties compiles to the empty list in both
    listings.  An array schema without items and without declared
    properties compiles to the empty list in the second listing, and is
    rejected by the first with the error for an unsupported kind. *)
Theorem body_without_fields `{!Collaborators} body b c key media so :
  resolveRequestBody body = Ok b ->
  b_content b = Some c ->
  List.find (fun entry : string * MediaTypeObject => jsonRegexp entry.1) c
  = Some (key, media) ->
  resolveSchema (m_schema media) = Ok (Some so) ->
  s_properties so = None ->
  (s_type so = Some "object" ->
   SparseDefaults.fromRequestBody (Some body) = Ok []
   /\ ConcreteDefaults.fromRequestBody (Some body) = Ok [])
  /\ (s_type so = Some "array" ->
      s_items so = None ->
      SparseDefaults.fromRequestBody (Some body)
      = Throw (notSupported (Some "array"))
      /\ ConcreteDefaults.fromRequestBody (Some body) = Ok []).
Proof.
  intros Hbody Hc Hfind Hso Hprops.
  rewrite (SparseDefaults_fromRequestBody_pick _ _ _ Hbody Hc),
    (pickContent_found _ _ _ Hfind),
    (ConcreteDefaults_fromRequestBody_json _ _ _ Hbody Hc), Hfind.
  unfold SparseDefaults.compileContent, ConcreteDefaults.compileContent,
    ConcreteDefaults.arrayBodyFields.
  rewrite Hso, !bind_Ok; cbn [deref]; rewrite !bind_Ok, Hprops.
  split.
  - intros ->. split; reflexivity.
  - intros -> ->. split; reflexivity.
Qed.

(** [{type: object}] and [{type: array}] as JSON bodies. *)
Lemma body_without_fields_witness :
  (SparseDefaults.fromRequestBody (H := plainCollaborators)
     (Some (BInline (bodyOf "application/json" (schemaOfType "object") None)))
   = Ok []
   /\ ConcreteDefaults.fromRequestBody (H := plainCollaborators)
        (Some (BInline (bodyOf "application/json" (schemaOfType "object") None)))
      = Ok [])
  /\ (SparseDefaults.fromRequestBody (H := plainCollaborators)
        (Some (BInline (bodyOf "application/json" (schemaOfType "array") None)))
      = Throw (Error "Request body schema type 'array' not supported")
      /\ ConcreteDefaults.fromRequestBody (H := plainCollaborators)
           (Some (BInline (bodyOf "application/json" (schemaOfType "array") None)))
         = Ok []).
Proof.
  split.
  - exact (proj1 (body_without_fields (H := plainCollaborators)
                    (BInline (bodyOf "application/json" (schemaOfType "object") None))
                    (bodyOf "application/json" (schemaOfType "object") None)
                    _ _ _ (schemaOfType "object")
                    eq_refl eq_refl eq_refl eq_refl eq_refl) eq_refl).
  - exact (proj2 (body_without_fields (H := plainCollaborators)
                    (BInline (bodyOf "application/json" (schemaOfType "array") None))
                    (bodyOf "application/json" (schemaOfType "array") None)
                    _ _ _ (schemaOfType "array")
                    eq_refl eq_refl eq_refl eq_refl eq_refl) eq_refl eq_refl).
Defined.
